(** * CodeBro API: the rule-based responder and the conversation endpoints

    A shallow embedding of [main.py] and [schemas.py].

    - Python [str] values are lists of Unicode code points, so that [len],
      slicing ([message[:40]]), [strip] and [lower] count characters the way
      Python does.
    - The endpoints run in a state-and-exception monad over the process-wide
      [db] handle.
    - The module [database] (the [db] handle and [create_document]) is not
      part of the sources at hand and is modelled from the interface
      description; [pymongo] and [bson] are modelled as far as the endpoints
      use them. *)

From Stdlib Require Import List String Ascii NArith Bool Arith Lia.
From Stdlib Require Import Strings.Byte.
From Stdlib Require Import Sorting.Sorted Sorting.Permutation.
From ExtLib Require Import Structures.Monad Structures.MonadState Structures.MonadExc.
From ExtLib Require Import Data.Monads.StateMonad Data.Monads.EitherMonad.
Import ListNotations.
Import MonadNotation.

(* ===================================================================== *)
(** ** Python strings *)
(* ===================================================================== *)

Module PyStr.

(** A character is a Unicode code point. *)
Definition char := N.
Definition str := list char.

(** [a == b] *)
Fixpoint eqb (a b : str) : bool :=
  match a, b with
  | [], [] => true
  | x :: a', y :: b' => N.eqb x y && eqb a' b'
  | _, _ => false
  end.

(** [utf8 bs need acc] reads the UTF-8 bytes [bs]; [need] continuation
    bytes are still missing for the code point accumulated in [acc]. *)
Fixpoint utf8 (bs : list N) (need : nat) (acc : N) : str :=
  match bs with
  | [] => []
  | b :: rest =>
      match need with
      | O =>
          if N.ltb b 128 then b :: utf8 rest 0 0
          else if N.ltb b 224 then utf8 rest 1 (N.land b 31)
          else if N.ltb b 240 then utf8 rest 2 (N.land b 15)
          else utf8 rest 3 (N.land b 7)
      | S O => (acc * 64 + N.land b 63)%N :: utf8 rest 0 0
      | S k => utf8 rest k (acc * 64 + N.land b 63)%N
      end
  end.

(** The escape [\n] of a Python literal. *)
Fixpoint unescape (s : str) : str :=
  match s with
  | 92%N :: 110%N :: rest => 10%N :: unescape rest
  | c :: rest => c :: unescape rest
  | [] => []
  end.

(** [py "..."] is the Python literal ["..."]: the source text is UTF-8, and
    [\n] stands for a line feed. *)
Definition py (s : string) : str :=
  unescape (utf8 (map N_of_ascii (list_ascii_of_string s)) 0 0).

(** The character ["] (written [\"] in the source). *)
Definition dquote : char := 34%N.

Definition len (s : str) : nat := List.length s.

(** [s[:n]] *)
Definition slice_to (n : nat) (s : str) : str := firstn n s.

(** [str.isspace] on one character: the code points Python's [strip()]
    removes (Unicode White_Space plus the separators 0x1C-0x1F). *)
Definition isspace (c : char) : bool :=
  (N.leb 9 c && N.leb c 13) || (N.leb 28 c && N.leb c 32)
  || N.eqb c 133 || N.eqb c 160 || N.eqb c 5760
  || (N.leb 8192 c && N.leb c 8202)
  || N.eqb c 8232 || N.eqb c 8233 || N.eqb c 8239 || N.eqb c 8287
  || N.eqb c 12288.

Fixpoint lstrip (s : str) : str :=
  match s with
  | c :: rest => if isspace c then lstrip rest else s
  | [] => []
  end.

Definition rstrip (s : str) : str := rev (lstrip (rev s)).

(** [s.strip()] *)
Definition strip (s : str) : str := rstrip (lstrip s).

(** The lowercase of one code point.  [A]-[Z] map to [a]-[z]; the only
    other code points whose lowercase contains an ASCII letter are U+0130
    (to [i] followed by U+0307) and the Kelvin sign U+212A (to [k]).  All
    other code points lowercase to text outside ASCII and are left as they
    are: the responder only looks for ASCII keywords in the result. *)
Definition lower_char (c : char) : str :=
  if N.leb 65 c && N.leb c 90 then [(c + 32)%N]
  else if N.eqb c 304 then [105%N; 775%N]
  else if N.eqb c 8490 then [107%N]
  else [c].

(** [s.lower()] *)
Definition lower (s : str) : str := flat_map lower_char s.

(** [s.startswith(p)] *)
Fixpoint startswith (p s : str) : bool :=
  match p, s with
  | [], _ => true
  | _ :: _, [] => false
  | a :: p', b :: s' => N.eqb a b && startswith p' s'
  end.

(** [sub in s] *)
Fixpoint contains (sub s : str) : bool :=
  startswith sub s
  || match s with
     | [] => false
     | _ :: s' => contains sub s'
     end.

End PyStr.
Import PyStr.

(* ===================================================================== *)
(** ** Simple CodeBro Brain *)
(* ===================================================================== *)

Definition greeting_reply : str :=
  py "Hey! I'm CodeBro 🤖💙 — your coding sidekick. Ask me about React, FastAPI, MongoDB, Tailwind, or deployment!".

Definition deployment_reply : str :=
  py "Deployment tips:\n"
  ++ py "- Frontend: build with Vite (npm run build) and host static files (Vercel/Netlify).\n"
  ++ py "- Backend: use FastAPI + Uvicorn on a server (Railway/Render/Fly.io).\n"
  ++ py "- Set DATABASE_URL and DATABASE_NAME env vars.\n"
  ++ py "- Enable CORS and point frontend to your backend URL via VITE_BACKEND_URL.".

Definition react_reply : str :=
  py "In React with Vite: manage state with hooks (useState/useEffect), fetch from your API using fetch/axios, and use Tailwind for rapid UI.\n"
  ++ py "Need a quick example?\n\n"
  ++ py "useEffect(() => { fetch('/api').then(r=>r.json()).then(setData); }, []);".

Definition fastapi_reply : str :=
  py "FastAPI quickstart:\n\n"
  ++ py "from fastapi import FastAPI\napp = FastAPI()\n@app.get('/')\ndef home(): return {'ok': True}\n\n"
  ++ py "Run with: uvicorn main:app --reload".

Definition mongodb_reply : str :=
  py "MongoDB patterns:\n- Use a single client and reuse the db handle.\n- Store timestamps (created_at/updated_at).\n- Index frequent query fields.\n- Keep references by storing ObjectId as string if you prefer simple JSON APIs.".

Definition tailwind_reply : str :=
  py "Tailwind tip: compose utilities and extract components when repeated. Use container, max-w-*, and prose for long content.".

Definition debug_reply : str :=
  py "Debug flow I recommend:\n1) Reproduce reliably.\n2) Read the exact error and the stack.\n3) Minimize to a tiny snippet.\n4) Add logs/prints.\n5) Fix, then add a test to avoid regressions.".

(** The default helpful echo (an f-string around [user_message.strip()]). *)
Definition default_reply (user_message : str) : str :=
  py "I hear you! Here's a quick, actionable reply:\n\n"
  ++ (py "- Summary: you said → " ++ [dquote] ++ strip user_message ++ [dquote] ++ py "\n")
  ++ py "- Next step: break it into smaller tasks and tackle them one by one.\n"
  ++ py "- Want code? Paste a snippet and I'll review it.".

(** A lightweight rule-based responder to emulate helpful coding assistant. *)
Definition codebro_brain (user_message : str) : str :=
  let m := lower (strip user_message) in
  if existsb (fun x => contains x m) [py "hello"; py "hi"; py "hey"] then
    greeting_reply
  else if contains (py "deploy") m || contains (py "deployment") m then
    deployment_reply
  else if contains (py "react") m then
    react_reply
  else if contains (py "fastapi") m || contains (py "python") m then
    fastapi_reply
  else if contains (py "mongodb") m || contains (py "mongo") m
          || contains (py "database") m then
    mongodb_reply
  else if contains (py "tailwind") m then
    tailwind_reply
  else if contains (py "code") m || contains (py "bug") m
          || contains (py "error") m || contains (py "fix") m then
    debug_reply
  else
    default_reply user_message.

(** Every keyword a rule of [codebro_brain] looks for, in rule order. *)
Definition keywords : list str :=
  [py "hello"; py "hi"; py "hey"; py "deploy"; py "deployment"; py "react";
   py "fastapi"; py "python"; py "mongodb"; py "mongo"; py "database";
   py "tailwind"; py "code"; py "bug"; py "error"; py "fix"].

(** No keyword rule matches: the normalised input contains no keyword. *)
Definition no_rule_matches (user_message : str) : bool :=
  forallb (fun k => negb (contains k (lower (strip user_message)))) keywords.

(* ===================================================================== *)
(** ** [bson.ObjectId] *)
(* ===================================================================== *)

Module ObjectId.

(** An ObjectId is its [binary] value (12 bytes when the store made it). *)
Definition t := list byte.

Fixpoint eqb (a b : t) : bool :=
  match a, b with
  | [], [] => true
  | x :: a', y :: b' => Byte.eqb x y && eqb a' b'
  | _, _ => false
  end.

Definition hexdigit (n : N) : char :=
  if N.ltb n 10 then (48 + n)%N else (87 + n)%N.

Definition hexlify_byte (b : byte) : str :=
  let n := Byte.to_N b in [hexdigit (n / 16); hexdigit (n mod 16)].

(** [str(oid)]: 24 lowercase hexadecimal digits. *)
Definition to_str (oid : t) : str := flat_map hexlify_byte oid.

Definition digit_value (c : char) : option N :=
  if N.leb 48 c && N.leb c 57 then Some (c - 48)%N
  else if N.leb 97 c && N.leb c 102 then Some (c - 87)%N
  else if N.leb 65 c && N.leb c 70 then Some (c - 55)%N
  else None.

Definition byte_of_N (n : N) : byte :=
  match Byte.of_N n with
  | Some b => b
  | None => x00
  end.

(** The ASCII whitespace [bytes.fromhex] skips between two bytes. *)
Definition ascii_space (c : char) : bool :=
  (N.leb 9 c && N.leb c 13) || N.eqb c 32.

(** [bytes.fromhex(s)]; [None] stands for its [ValueError]. *)
Fixpoint fromhex (s : str) : option (list byte) :=
  match s with
  | [] => Some []
  | c :: rest =>
      if ascii_space c then fromhex rest
      else
        match rest with
        | [] => None
        | d :: rest' =>
            match digit_value c, digit_value d with
            | Some top, Some bot =>
                option_map (cons (byte_of_N (top * 16 + bot))) (fromhex rest')
            | _, _ => None
            end
        end
  end.

(** [ObjectId(s)] for a string [s]; [None] stands for [InvalidId]. *)
Definition of_str (s : str) : option t :=
  if Nat.eqb (len s) 24 then fromhex s else None.

(** Modelled from the spec: the store-generated identifier of a record,
    which the absent [database] module obtains on insertion.  The [k]-th
    document the store creates gets the 12 bytes of [k], most significant
    first. *)
Definition generate (k : nat) : t :=
  map (fun i => byte_of_N ((N.of_nat k / 256 ^ i) mod 256)%N)
      [11; 10; 9; 8; 7; 6; 5; 4; 3; 2; 1; 0]%N.

End ObjectId.

(* ===================================================================== *)
(** ** Documents and the database *)
(* ===================================================================== *)

(** A creation time, as the store's clock counts it. *)
Definition datetime := N.

(** The values a document or a response carries: strings, ObjectIds,
    datetimes, integers, [None], booleans, floats (by their 64 bits), lists
    and nested documents. *)
#[warnings="-register-all"] Inductive Value :=
| VStr (s : str)
| VObjectId (oid : ObjectId.t)
| VDatetime (d : datetime)
| VInt (n : nat)
| VNone
| VBool (b : bool)
| VFloat (binary64 : N)
| VList (items : list Value)
| VDict (fields : list (str * Value)).

(** A Python [dict] with string keys, in insertion order. *)
Definition dict := list (str * Value).

Fixpoint dict_get (d : dict) (k : str) : option Value :=
  match d with
  | [] => None
  | (k', v) :: d' => if PyStr.eqb k' k then Some v else dict_get d' k
  end.

(** [d[k] = v] *)
Fixpoint dict_set (d : dict) (k : str) (v : Value) : dict :=
  match d with
  | [] => [(k, v)]
  | (k', v') :: d' =>
      if PyStr.eqb k' k then (k', v) :: d' else (k', v') :: dict_set d' k v
  end.

Module Conversation.
Record t := mk { _id : ObjectId.t; title : str; created_at : datetime }.

Definition to_dict (c : t) : dict :=
  [(py "_id", VObjectId (_id c)); (py "title", VStr (title c));
   (py "created_at", VDatetime (created_at c))].
End Conversation.

Module Message.
Record t := mk {
  _id : ObjectId.t;
  conversation_id : str;
  role : str;
  content : str;
  created_at : datetime
}.

Definition to_dict (m : t) : dict :=
  [(py "_id", VObjectId (_id m));
   (py "conversation_id", VStr (conversation_id m));
   (py "role", VStr (role m)); (py "content", VStr (content m));
   (py "created_at", VDatetime (created_at m))].
End Message.

(** Modelled from the spec: the document store behind the [database]
    module's [db] handle, whose source is not at hand.  It holds the
    conversations and the messages as two independent collections, each in
    insertion order, and counts the documents created so far; the count
    drives the identifiers and the clock readings of new records. *)
Record Database := mkDatabase {
  conversation : list Conversation.t;
  message : list Message.t;
  created : nat
}.

Definition empty_database : Database := mkDatabase [] [] 0.

(** What [create_document] is given for each collection. *)
Inductive Data :=
| ConversationData (title : str)
| MessageData (conversation_id role content : str).

Inductive Exception :=
| HTTPException (status_code : nat) (detail : str)
| InvalidId (oid : str)
| DatabaseNotAvailable
| RequestValidationError.

(** The NotFound error of [get_conversation]. *)
Definition NotFound : Exception :=
  HTTPException 404 (py "Conversation not found").

(** Endpoints read and write the process-wide handle [db] ([None] when the
    database is not configured) and may raise. *)
Definition App := stateT (option Database) (sum Exception).

#[local] Existing Instance Monad_stateT.
Local Open Scope monad_scope.

(** *** Cursors: [find], [sort], [limit], [count_documents] *)

Inductive Direction := ASCENDING | DESCENDING.

Section Cursor.
Context {A : Type}.

Fixpoint insert_by (le : A -> A -> bool) (x : A) (l : list A) : list A :=
  match l with
  | [] => [x]
  | y :: l' => if le x y then x :: y :: l' else y :: insert_by le x l'
  end.

Definition sort_with (le : A -> A -> bool) (l : list A) : list A :=
  fold_right (insert_by le) [] l.

(** [cursor.sort(key, 1)] and [cursor.sort(key, -1)].  The store promises
    no order among documents with equal keys; here they keep theirs. *)
Definition sort (key : A -> datetime) (direction : Direction)
  (l : list A) : list A :=
  match direction with
  | ASCENDING => sort_with (fun x y => N.leb (key x) (key y)) l
  | DESCENDING => sort_with (fun x y => N.leb (key y) (key x)) l
  end.

(** [cursor.limit(n)] *)
Definition limit (n : nat) (l : list A) : list A := firstn n l.
End Cursor.

(** The filter [{"conversation_id": v}] on the message collection. *)
Definition conversation_id_is (v : option Value) (m : Message.t) : bool :=
  match v with
  | Some (VStr s) => PyStr.eqb (Message.conversation_id m) s
  | _ => false
  end.

(** [db["message"].count_documents({"conversation_id": v})] *)
Definition count_documents (db : Database) (v : option Value) : nat :=
  List.length (filter (conversation_id_is v) (message db)).

(** [db["conversation"].find_one({"_id": oid})] *)
Definition find_one (db : Database) (oid : ObjectId.t) : option Conversation.t :=
  find (fun c => ObjectId.eqb (Conversation._id c) oid) (conversation db).

(* ===================================================================== *)
(** ** Schemas of the requests *)
(* ===================================================================== *)

Module CreateConversationRequest.
Record t := mk { title : option str }.
End CreateConversationRequest.

Module ChatRequest.
Record t := mk { message : str; conversation_id : option str }.

(** [message: str = Field(..., min_length=1)]: building the request from a
    body fails when the message has no character. *)
Definition validate (message : str) (conversation_id : option str)
  : Exception + t :=
  if Nat.leb 1 (len message) then inr (mk message conversation_id)
  else inl RequestValidationError.
End ChatRequest.

Module ChatResponse.
Record t := mk { conversation_id : str; reply : str }.
End ChatResponse.

(** Python truthiness of an [Optional[str]]: [None] and [""] are false.
    [truthy o] is the string of a true [o]. *)
Definition truthy (o : option str) : option str :=
  match o with
  | Some (c :: s) => Some (c :: s)
  | Some [] | None => None
  end.

(* ===================================================================== *)
(** ** Routes *)
(* ===================================================================== *)

Section Routes.

(** [utcnow k] is the time the store's clock shows when the [k]-th document
    is created; [isoformat] is [datetime.isoformat]. *)
Variable utcnow : nat -> datetime.
Variable isoformat : datetime -> str.

(** Modelled from the spec: the [database] module's [create_document],
    whose source is not at hand.  Its contract is
    [create(collection, fields) -> id]: it adds one record with the given
    fields, a store-generated identifier and the store-assigned creation
    timestamp to the collection, and returns the identifier as a string.
    The collection is the one of the data's schema ([conversation] or
    [message]). *)
Definition create_document (data : Data) : App str :=
  handle <- get ;;
  match handle with
  | None => raise DatabaseNotAvailable
  | Some db =>
      let oid := ObjectId.generate (created db) in
      let now := utcnow (created db) in
      put (Some
             match data with
             | ConversationData title =>
                 mkDatabase
                   (conversation db ++ [Conversation.mk oid title now])
                   (message db) (S (created db))
             | MessageData conversation_id role content =>
                 mkDatabase
                   (conversation db)
                   (message db
                      ++ [Message.mk oid conversation_id role content now])
                   (S (created db))
             end) ;;
      ret (ObjectId.to_str oid)
  end.

Definition serialize_doc (doc : dict) : dict :=
  map (fun kv : str * Value =>
         let (k, v) := kv in
         match v with
         | VObjectId oid => (k, VStr (ObjectId.to_str oid))
         | VDatetime d => (k, VStr (isoformat d))
         | _ => (k, v)
         end) doc.

(** [if db is None: raise HTTPException(status_code=500, ...)] *)
Definition configured_db : App Database :=
  handle <- get ;;
  match handle with
  | None => raise (HTTPException 500 (py "Database not configured"))
  | Some db => ret db
  end.

Definition read_root : App dict :=
  ret [(py "message", VStr (py "Hello from CodeBro Backend!"))].

Definition hello : App dict :=
  ret [(py "message", VStr (py "Hello from the backend API!"))].

Definition create_conversation (req : CreateConversationRequest.t)
  : App (str * str) :=
  _ <- configured_db ;;
  (* title = req.title or "New Chat" *)
  let title :=
    match truthy (CreateConversationRequest.title req) with
    | Some title => title
    | None => py "New Chat"
    end in
  convo_id <- create_document (ConversationData title) ;;
  ret (convo_id, title).

(** The response is [{"items": convos}]. *)
Definition list_conversations : App (list dict) :=
  db <- configured_db ;;
  let items := limit 50 (sort Conversation.created_at DESCENDING (conversation db)) in
  ret (map (fun it =>
              let d := serialize_doc (Conversation.to_dict it) in
              dict_set d (py "messages_count")
                (VInt (count_documents db (dict_get d (py "_id")))))
           items).

(** The response is [{"conversation": ..., "messages": [...]}]. *)
Definition get_conversation (conversation_id : str) : App (dict * list dict) :=
  db <- configured_db ;;
  match ObjectId.of_str conversation_id with
  | None => raise (InvalidId conversation_id)
  | Some oid =>
      match find_one db oid with
      | None => raise NotFound
      | Some convo =>
          let msgs :=
            sort Message.created_at ASCENDING
              (filter (conversation_id_is (Some (VStr conversation_id)))
                      (message db)) in
          ret (serialize_doc (Conversation.to_dict convo),
               map (fun m => serialize_doc (Message.to_dict m)) msgs)
      end
  end.

(** The title of a conversation [chat] creates. *)
Definition chat_title (message : str) : str :=
  slice_to 40 message ++ (if Nat.ltb 40 (len message) then py "…" else []).

Definition chat (req : ChatRequest.t) : App ChatResponse.t :=
  _ <- configured_db ;;
  (* create conversation if needed *)
  conversation_id <-
    match truthy (ChatRequest.conversation_id req) with
    | Some conversation_id => ret conversation_id
    | None =>
        create_document
          (ConversationData (chat_title (ChatRequest.message req)))
    end ;;
  (* persist user message *)
  _ <- create_document
         (MessageData conversation_id (py "user") (ChatRequest.message req)) ;;
  (* generate assistant reply *)
  let reply := codebro_brain (ChatRequest.message req) in
  (* persist assistant message *)
  _ <- create_document (MessageData conversation_id (py "assistant") reply) ;;
  ret (ChatResponse.mk conversation_id reply).

(** [POST /api/chat] with a body: the request is validated, then handled. *)
Definition post_chat (message : str) (conversation_id : option str)
  : App ChatResponse.t :=
  match ChatRequest.validate message conversation_id with
  | inl e => raise e
  | inr req => chat req
  end.

(** *** Sequences of requests *)

Inductive Request :=
| GET_root
| GET_hello
| POST_conversations (title : option str)
| GET_conversations
| GET_conversation (conversation_id : str)
| POST_chat (message : str) (conversation_id : option str)
| GET_test.

(** The handler of a request, its response dropped.  [GET /test] reads the
    handle and the environment and writes nothing. *)
Definition handle (r : Request) : App unit :=
  match r with
  | GET_root => _ <- read_root ;; ret tt
  | GET_hello => _ <- hello ;; ret tt
  | POST_conversations title =>
      _ <- create_conversation (CreateConversationRequest.mk title) ;; ret tt
  | GET_conversations => _ <- list_conversations ;; ret tt
  | GET_conversation conversation_id =>
      _ <- get_conversation conversation_id ;; ret tt
  | POST_chat message conversation_id =>
      _ <- post_chat message conversation_id ;; ret tt
  | GET_test => ret tt
  end.

(** The handle after one request; a request that raises did so before it
    wrote anything. *)
Definition step (handle_ : option Database) (r : Request) : option Database :=
  match runStateT (handle r) handle_ with
  | inl _ => handle_
  | inr (_, handle') => handle'
  end.

Definition serve (rs : list Request) (handle_ : option Database)
  : option Database :=
  fold_left step rs handle_.

End Routes.

(* ===================================================================== *)
(** ** The diagnostic route *)
(* ===================================================================== *)

(** The response of [GET /test], a dict with these six keys. *)
Module TestResponse.
Record t := mk {
  backend : str;
  database : str;
  database_url : option str;
  database_name : option str;
  connection_status : str;
  collections : list str
}.

(** [response["database"] = v] and the like. *)
Definition set_database (v : str) (r : t) : t :=
  mk (backend r) v (database_url r) (database_name r) (connection_status r)
     (collections r).

Definition set_database_url (v : option str) (r : t) : t :=
  mk (backend r) (database r) v (database_name r) (connection_status r)
     (collections r).

Definition set_database_name (v : option str) (r : t) : t :=
  mk (backend r) (database r) (database_url r) v (connection_status r)
     (collections r).

Definition set_connection_status (v : str) (r : t) : t :=
  mk (backend r) (database r) (database_url r) (database_name r) v
     (collections r).

Definition set_collections (v : list str) (r : t) : t :=
  mk (backend r) (database r) (database_url r) (database_name r)
     (connection_status r) v.
End TestResponse.

(** What reading an attribute of the handle does: the handle has no such
    attribute, or the attribute has a value, or reading it raises an
    exception whose text [str(e)] is [e]. *)
Inductive Attribute :=
| NoAttribute
| AttributeValue (v : str)
| AttributeRaises (e : str).

Section Diagnostics.

(** What the route asks of the handle and of the environment:
    [db_name db] is what reading [db.name] does; an exception raised there
    is caught by the outer [except];
    [list_collection_names db] is the list the call returns, or [inl e] when
    it raises an exception whose text [str(e)] is [e], caught by the inner
    [except]; [getenv] is [os.getenv]. *)
Variable db_name : Database -> Attribute.
Variable list_collection_names : Database -> str + list str.
Variable getenv : str -> option str.

Definition test_database : App TestResponse.t :=
  handle_ <- get ;;
  let response :=
    TestResponse.mk (py "✅ Running") (py "❌ Not Available") None None
      (py "Not Connected") [] in
  let response :=
    match handle_ with
    | Some db =>
        let response := TestResponse.set_database (py "✅ Available") response in
        let response :=
          TestResponse.set_database_url (Some (py "✅ Configured")) response in
        (* the statements after [response["database_name"] = ...] *)
        let connected (response : TestResponse.t) : TestResponse.t :=
          let response :=
            TestResponse.set_connection_status (py "Connected") response in
          match list_collection_names db with
          | inr collections =>
              let response :=
                TestResponse.set_collections (firstn 10 collections) response in
              TestResponse.set_database (py "✅ Connected & Working") response
          | inl e =>
              TestResponse.set_database
                (py "⚠️  Connected but Error: " ++ slice_to 50 e) response
          end in
        match db_name db with
        | AttributeValue name =>
            connected (TestResponse.set_database_name (Some name) response)
        | NoAttribute =>
            connected
              (TestResponse.set_database_name (Some (py "✅ Connected"))
                 response)
        | AttributeRaises e =>
            (* except Exception as e *)
            TestResponse.set_database (py "❌ Error: " ++ slice_to 50 e)
              response
        end
    | None =>
        TestResponse.set_database (py "⚠️  Available but not initialized")
          response
    end in
  let response :=
    TestResponse.set_database_url
      (Some (match truthy (getenv (py "DATABASE_URL")) with
             | Some _ => py "✅ Set"
             | None => py "❌ Not Set"
             end)) response in
  let response :=
    TestResponse.set_database_name
      (Some (match truthy (getenv (py "DATABASE_NAME")) with
             | Some _ => py "✅ Set"
             | None => py "❌ Not Set"
             end)) response in
  ret response.

End Diagnostics.

(* ===================================================================== *)
(** ** Notions the properties are stated with *)
(* ===================================================================== *)

(** A message that consists of whitespace characters only. *)
Definition whitespace_only (s : str) : bool := forallb isspace s.

(** The messages stored under a conversation id. *)
Definition messages_of (db : Database) (conversation_id : str) : list Message.t :=
  filter (fun m => PyStr.eqb (Message.conversation_id m) conversation_id)
         (message db).

(** An id resolves when [get_conversation] finds a conversation for it. *)
Definition resolves (db : Database) (conversation_id : str) : bool :=
  match ObjectId.of_str conversation_id with
  | Some oid =>
      match find_one db oid with
      | Some _ => true
      | None => false
      end
  | None => false
  end.

(** Every persisted message refers to an existing conversation. *)
Definition references_resolve (handle_ : option Database) : Prop :=
  match handle_ with
  | Some db =>
      Forall (fun m => resolves db (Message.conversation_id m) = true)
             (message db)
  | None => True
  end.

(** Conversations from the newest to the oldest. *)
Definition newest_first (l : list Conversation.t) : Prop :=
  StronglySorted
    (fun a b => (Conversation.created_at b <= Conversation.created_at a)%N) l.

(** Messages from the oldest to the newest. *)
Definition oldest_first (l : list Message.t) : Prop :=
  StronglySorted
    (fun a b => (Message.created_at a <= Message.created_at b)%N) l.

(** The reply of a chat turn that did not raise. *)
Definition reply_of {S : Type} (r : Exception + ChatResponse.t * S)
  : option str :=
  match r with
  | inr (resp, _) => Some (ChatResponse.reply resp)
  | inl _ => None
  end.

(** The conversation id a chat request supplies, if it supplies one,
    resolves in [db]. *)
Definition supplied_id_resolves (db : Database) (r : Request) : bool :=
  match r with
  | POST_chat _ conversation_id =>
      match truthy conversation_id with
      | Some given => resolves db given
      | None => true
      end
  | _ => true
  end.

Section Sequences.

Variable utcnow : nat -> datetime.
Variable isoformat : datetime -> str.

(** Every conversation id a chat request of the sequence supplies resolves
    at the time the request arrives. *)
Fixpoint supplied_ids_resolve (rs : list Request) (handle_ : option Database)
  : bool :=
  match rs with
  | [] => true
  | r :: rs' =>
      match handle_ with
      | Some db => supplied_id_resolves db r
      | None => true
      end
      && supplied_ids_resolve rs' (step utcnow isoformat handle_ r)
  end.

End Sequences.

(** [isinstance(v, ObjectId) or isinstance(v, datetime)]: the values
    [serialize_doc] replaces. *)
Definition needs_serializing (v : Value) : bool :=
  match v with
  | VObjectId _ | VDatetime _ => true
  | _ => false
  end.

(** What [serialize_doc] makes of one value. *)
Definition serialized (isoformat : datetime -> str) (v : Value) : Value :=
  match v with
  | VObjectId oid => VStr (ObjectId.to_str oid)
  | VDatetime d => VStr (isoformat d)
  | _ => v
  end.

(** One of the three greeting keywords occurs in the normalised input. *)
Definition greets (user_message : str) : bool :=
  existsb (fun x => contains x (lower (strip user_message)))
          [py "hello"; py "hi"; py "hey"].

(* ===================================================================== *)
(** * Properties of the responder *)
(* ===================================================================== *)

Example py_arrow : py "→\n" = [8594%N; 10%N].
Proof. reflexivity. Qed.

Example py_robot : py "🤖…" = [129302%N; 8230%N].
Proof. reflexivity. Qed.

Example strip_ex : strip (py "  Hi there \n") = py "Hi there".
Proof. reflexivity. Qed.

Example brain_database :
  codebro_brain (py "what database should I use") = mongodb_reply.
Proof. vm_compute. reflexivity. Qed.

Section StringFacts.

Lemma startswith_app (p s : str) : startswith p (p ++ s) = true.
Proof.
  induction p as [|a p IH]; simpl.
  - reflexivity.
  - now rewrite N.eqb_refl, IH.
Qed.

Lemma contains_app_l (sub pre s : str) :
  contains sub s = true -> contains sub (pre ++ s) = true.
Proof.
  intros H. induction pre as [|a pre IH]; simpl.
  - exact H.
  - rewrite IH. apply orb_true_r.
Qed.

(** A string is found in every text built around it. *)
Lemma contains_infix (sub pre post : str) :
  contains sub (pre ++ sub ++ post) = true.
Proof.
  apply contains_app_l.
  destruct (sub ++ post) eqn:E; simpl; rewrite <- E;
    now rewrite startswith_app.
Qed.

Lemma startswith_prefix (p s : str) :
  startswith p s = true -> exists post, s = p ++ post.
Proof.
  revert s. induction p as [|a p IH]; intros s H; simpl in H.
  - now exists s.
  - destruct s as [|b s]; [discriminate|].
    apply andb_true_iff in H. destruct H as [Hab Hp].
    apply N.eqb_eq in Hab. subst b.
    destruct (IH _ Hp) as [post ->]. now exists post.
Qed.

(** What [sub in s] finds is an occurrence of [sub]. *)
Lemma contains_occurrence (sub s : str) :
  contains sub s = true -> exists pre post, s = pre ++ sub ++ post.
Proof.
  induction s as [|c s IH]; simpl; intros H.
  - rewrite orb_false_r in H.
    destruct (startswith_prefix _ _ H) as [post E]. now exists [], post.
  - apply orb_true_iff in H. destruct H as [H|H].
    + destruct (startswith_prefix _ _ H) as [post E]. now exists [], post.
    + destruct (IH H) as (pre & post & ->). now exists (c :: pre), post.
Qed.

Lemma lstrip_whitespace (s : str) :
  forallb isspace s = true -> lstrip s = [].
Proof.
  induction s as [|c s IH]; simpl; intros H.
  - reflexivity.
  - apply andb_true_iff in H. destruct H as [Hc Hs].
    rewrite Hc. now apply IH.
Qed.

(** A message of whitespace only is trimmed to the empty string. *)
Lemma strip_whitespace (s : str) :
  forallb isspace s = true -> strip s = [].
Proof.
  intros H. unfold strip. now rewrite lstrip_whitespace.
Qed.

End StringFacts.

(** The reply of the default rule is used when no keyword is found. *)
Lemma codebro_brain_default (user_message : str) :
  no_rule_matches user_message = true ->
  codebro_brain user_message = default_reply user_message.
Proof.
  unfold no_rule_matches, keywords, codebro_brain.
  cbv zeta. generalize (lower (strip user_message)) as m. intros m H.
  cbn [forallb existsb] in *.
  repeat (apply andb_true_iff in H; destruct H as [?H H]).
  repeat match goal with
         | K : negb _ = true |- _ => apply negb_true_iff in K; rewrite K; clear K
         end.
  reflexivity.
Qed.

(** The greeting rule is tried before every other rule. *)
Lemma codebro_brain_greeting_first (user_message : str) :
  existsb (fun x => contains x (lower (strip user_message)))
          [py "hello"; py "hi"; py "hey"] = true ->
  codebro_brain user_message = greeting_reply.
Proof.
  intros H. unfold codebro_brain. cbv zeta. now rewrite H.
Qed.

(** C5: for every non-empty input string, [codebro_brain] returns a
    non-empty reply string. *)
Theorem codebro_brain_nonempty (user_message : str) :
  user_message <> [] -> codebro_brain user_message <> [].
Proof.
  intros _. unfold codebro_brain. cbv zeta.
  repeat match goal with
         | |- (if ?c then _ else _) <> _ => destruct c
         end;
    vm_compute; discriminate.
Qed.

Lemma codebro_brain_nonempty_witness :
  py "how do I fix this bug" <> [] /\
  codebro_brain (py "how do I fix this bug") <> [].
Proof.
  split.
  - vm_compute. discriminate.
  - apply (codebro_brain_nonempty (py "how do I fix this bug")).
    vm_compute. discriminate.
Defined.

(** C6: rule order is significant and the first match wins.  The input
    "hello, can you help me deploy" contains a keyword of the greeting rule
    and a keyword of the deployment rule; the responder returns the greeting
    reply, which is not the deployment reply. *)
Theorem codebro_brain_greeting_before_deploy :
  let user_message := py "hello, can you help me deploy" in
  let m := lower (strip user_message) in
  contains (py "hello") m = true /\
  contains (py "deploy") m = true /\
  codebro_brain user_message = greeting_reply /\
  greeting_reply <> deployment_reply.
Proof.
  cbv zeta. repeat split; try (vm_compute; reflexivity).
  vm_compute. discriminate.
Qed.

(** C7: on every input on which no keyword rule matches, [codebro_brain]
    returns the default reply, and the reply contains the trimmed original
    input verbatim as a substring. *)
Theorem codebro_brain_default_echo (user_message : str) :
  no_rule_matches user_message = true ->
  codebro_brain user_message = default_reply user_message
  /\ contains (strip user_message) (codebro_brain user_message) = true
  /\ exists pre post : str,
       codebro_brain user_message = pre ++ strip user_message ++ post.
Proof.
  intros H. rewrite (codebro_brain_default _ H). split; [reflexivity|].
  assert (C : contains (strip user_message) (default_reply user_message) = true);
    [|split; [exact C|now apply contains_occurrence]].
  unfold default_reply.
  match goal with
  | |- contains ?s (?a ++ (?b ++ ?q ++ ?s ++ ?q' ++ ?c) ++ ?d ++ ?e) = true =>
      replace (a ++ (b ++ q ++ s ++ q' ++ c) ++ d ++ e)
        with ((a ++ b ++ q) ++ s ++ (q' ++ c ++ d ++ e))
        by (now rewrite <- !app_assoc)
  end.
  apply contains_infix.
Qed.

Lemma codebro_brain_default_echo_witness :
  no_rule_matches (py "  asdfqwerty ") = true /\
  strip (py "  asdfqwerty ") = py "asdfqwerty" /\
  codebro_brain (py "  asdfqwerty ") = default_reply (py "  asdfqwerty ") /\
  contains (py "asdfqwerty") (codebro_brain (py "  asdfqwerty ")) = true.
Proof.
  assert (H : no_rule_matches (py "  asdfqwerty ") = true)
    by (vm_compute; reflexivity).
  destruct (codebro_brain_default_echo (py "  asdfqwerty ") H) as (Hd & He & _).
  refine (conj H (conj _ (conj Hd He))).
  vm_compute. reflexivity.
Defined.

(** The example of the specification, as it is. *)
Example codebro_brain_asdfqwerty :
  codebro_brain (py "asdfqwerty") = default_reply (py "asdfqwerty") /\
  contains (py "asdfqwerty") (codebro_brain (py "asdfqwerty")) = true.
Proof. split; vm_compute; reflexivity. Qed.

(* ===================================================================== *)
(** * Properties of the chat turn *)
(* ===================================================================== *)

Section ChatFacts.

Variable utcnow : nat -> datetime.

(** [create_document] on a configured handle adds one conversation. *)
Lemma run_create_conversation_document (db : Database) (title : str) :
  runStateT (create_document utcnow (ConversationData title)) (Some db) =
  inr (ObjectId.to_str (ObjectId.generate (created db)),
       Some (mkDatabase
               (conversation db
                  ++ [Conversation.mk (ObjectId.generate (created db)) title
                        (utcnow (created db))])
               (message db) (S (created db)))).
Proof. reflexivity. Qed.

(** [create_document] on a configured handle adds one message. *)
Lemma run_create_message_document (db : Database) (cid role content : str) :
  runStateT (create_document utcnow (MessageData cid role content)) (Some db) =
  inr (ObjectId.to_str (ObjectId.generate (created db)),
       Some (mkDatabase
               (conversation db)
               (message db
                  ++ [Message.mk (ObjectId.generate (created db)) cid role
                        content (utcnow (created db))])
               (S (created db)))).
Proof. reflexivity. Qed.

(** A chat turn under a given conversation id adds two messages and no
    conversation. *)
Lemma run_chat_given (db : Database) (message_ : str) (o : option str)
  (given : str) :
  truthy o = Some given ->
  runStateT (chat utcnow (ChatRequest.mk message_ o)) (Some db) =
  inr (ChatResponse.mk given (codebro_brain message_),
       Some (mkDatabase
               (conversation db)
               (message db
                  ++ [Message.mk (ObjectId.generate (created db)) given
                        (py "user") message_ (utcnow (created db));
                      Message.mk (ObjectId.generate (S (created db))) given
                        (py "assistant") (codebro_brain message_)
                        (utcnow (S (created db)))])
               (S (S (created db))))).
Proof.
  intros H. unfold chat. cbn [ChatRequest.conversation_id ChatRequest.message].
  rewrite H. cbn -[codebro_brain ObjectId.generate ObjectId.to_str py].
  now rewrite <- app_assoc.
Qed.

(** A chat turn without a usable conversation id adds one conversation and
    two messages under its id. *)
Lemma run_chat_new (db : Database) (message_ : str) (o : option str) :
  truthy o = None ->
  let oid := ObjectId.generate (created db) in
  runStateT (chat utcnow (ChatRequest.mk message_ o)) (Some db) =
  inr (ChatResponse.mk (ObjectId.to_str oid) (codebro_brain message_),
       Some (mkDatabase
               (conversation db
                  ++ [Conversation.mk oid (chat_title message_)
                        (utcnow (created db))])
               (message db
                  ++ [Message.mk (ObjectId.generate (S (created db)))
                        (ObjectId.to_str oid) (py "user") message_
                        (utcnow (S (created db)));
                      Message.mk (ObjectId.generate (S (S (created db))))
                        (ObjectId.to_str oid) (py "assistant")
                        (codebro_brain message_)
                        (utcnow (S (S (created db))))])
               (S (S (S (created db)))))).
Proof.
  intros H oid. unfold chat.
  cbn [ChatRequest.conversation_id ChatRequest.message].
  rewrite H.
  cbn -[codebro_brain ObjectId.generate ObjectId.to_str py chat_title].
  now rewrite <- app_assoc.
Qed.

Lemma run_chat_unconfigured (req : ChatRequest.t) :
  runStateT (chat utcnow req) None =
  inl (HTTPException 500 (py "Database not configured")).
Proof. reflexivity. Qed.

Lemma validate_non_empty (message_ : str) (o : option str) :
  message_ <> [] ->
  ChatRequest.validate message_ o = inr (ChatRequest.mk message_ o).
Proof.
  intros H. destruct message_; [contradiction|reflexivity].
Qed.

Lemma to_str_non_empty (k : nat) : ObjectId.to_str (ObjectId.generate k) <> [].
Proof. discriminate. Qed.

(** The reply of a chat turn is the responder's, whatever the handle holds. *)
Lemma chat_reply (db : Database) (message_ : str) (o : option str) :
  reply_of (runStateT (chat utcnow (ChatRequest.mk message_ o)) (Some db))
  = Some (codebro_brain message_).
Proof.
  destruct (truthy o) as [given|] eqn:E.
  - now rewrite (run_chat_given db message_ o given E).
  - now rewrite (run_chat_new db message_ o E).
Qed.

End ChatFacts.

(** C1: a chat request with a non-empty message and no conversation_id
    creates exactly one new conversation and persists exactly two messages
    under that conversation's id: first one with role "user" whose content
    is the request message, then one with role "assistant" whose content is
    the responder's reply; it returns that conversation id together with the
    reply. *)
Theorem chat_without_conversation_id
  (utcnow : nat -> datetime) (db : Database) (message_ : str) :
  message_ <> [] ->
  exists (c : Conversation.t) (u a : Message.t),
    runStateT (post_chat utcnow message_ None) (Some db) =
      inr (ChatResponse.mk (ObjectId.to_str (Conversation._id c))
             (codebro_brain message_),
           Some (mkDatabase (conversation db ++ [c]) (message db ++ [u; a])
                   (3 + created db)))
    /\ Message.conversation_id u = ObjectId.to_str (Conversation._id c)
    /\ Message.role u = py "user"
    /\ Message.content u = message_
    /\ Message.conversation_id a = ObjectId.to_str (Conversation._id c)
    /\ Message.role a = py "assistant"
    /\ Message.content a = codebro_brain message_.
Proof.
  intros Hne.
  eexists (Conversation.mk _ _ _), (Message.mk _ _ _ _ _), (Message.mk _ _ _ _ _).
  unfold post_chat. rewrite (validate_non_empty _ _ Hne).
  rewrite (run_chat_new utcnow db message_ None eq_refl).
  cbn [Conversation._id Message.conversation_id Message.role Message.content].
  repeat split.
Qed.

Lemma chat_without_conversation_id_witness :
  py "hi" <> [] /\
  exists (c : Conversation.t) (u a : Message.t),
    runStateT (post_chat N.of_nat (py "hi") None) (Some empty_database) =
      inr (ChatResponse.mk (ObjectId.to_str (Conversation._id c))
             (codebro_brain (py "hi")),
           Some (mkDatabase [c] [u; a] 3))
    /\ Message.conversation_id u = ObjectId.to_str (Conversation._id c)
    /\ Message.role u = py "user"
    /\ Message.content u = py "hi"
    /\ Message.conversation_id a = ObjectId.to_str (Conversation._id c)
    /\ Message.role a = py "assistant"
    /\ Message.content a = codebro_brain (py "hi").
Proof.
  assert (H : py "hi" <> []) by (vm_compute; discriminate).
  split; [exact H|].
  exact (chat_without_conversation_id N.of_nat empty_database (py "hi") H).
Defined.

(** C10: a chat request whose conversation_id is the empty string behaves
    as one without conversation_id: a new conversation is created, titled
    with the first 40 characters of the message, followed by an ellipsis
    when the message is longer than 40 characters, and both messages are
    persisted under the new conversation's id, which is not the empty
    string. *)
Theorem chat_empty_conversation_id
  (utcnow : nat -> datetime) (db : Database) (message_ : str) :
  runStateT (chat utcnow (ChatRequest.mk message_ (Some []))) (Some db) =
  runStateT (chat utcnow (ChatRequest.mk message_ None)) (Some db)
  /\ exists (c : Conversation.t) (u a : Message.t),
    runStateT (chat utcnow (ChatRequest.mk message_ (Some []))) (Some db) =
      inr (ChatResponse.mk (ObjectId.to_str (Conversation._id c))
             (codebro_brain message_),
           Some (mkDatabase (conversation db ++ [c]) (message db ++ [u; a])
                   (3 + created db)))
    /\ Conversation.title c =
         firstn 40 message_
           ++ (if Nat.ltb 40 (List.length message_) then [8230%N] else [])
    /\ Message.conversation_id u = ObjectId.to_str (Conversation._id c)
    /\ Message.conversation_id a = ObjectId.to_str (Conversation._id c)
    /\ ObjectId.to_str (Conversation._id c) <> [].
Proof.
  split.
  - now rewrite !run_chat_new.
  - eexists (Conversation.mk _ _ _), (Message.mk _ _ _ _ _), (Message.mk _ _ _ _ _).
    rewrite (run_chat_new utcnow db message_ (Some []) eq_refl).
    cbn [Conversation._id Conversation.title Message.conversation_id].
    repeat split. apply to_str_non_empty.
Qed.

(** The titles of a short and of a long message. *)
Example chat_title_short : chat_title (py "fix my bug") = py "fix my bug".
Proof. reflexivity. Qed.

Example chat_title_long :
  chat_title (py "0123456789012345678901234567890123456789X")
  = py "0123456789012345678901234567890123456789…".
Proof. reflexivity. Qed.

(** A whitespace-only message is answered by the default rule, with an
    empty summary. *)
Lemma codebro_brain_whitespace (message_ : str) :
  whitespace_only message_ = true ->
  codebro_brain message_ = default_reply [].
Proof.
  intros H. unfold codebro_brain, default_reply. cbv zeta.
  rewrite (strip_whitespace _ H). reflexivity.
Qed.

(** C8, as the code has it: only the empty message is rejected by the
    validation of the chat request (the length is counted without
    trimming).  A non-empty message of whitespace only passes it, and the
    responder is run on it: the chat turn replies with the default reply,
    whose summary is empty. *)
Theorem chat_validation_counts_characters
  (utcnow : nat -> datetime) (db : Database) (message_ : str)
  (o : option str) :
  message_ <> [] ->
  whitespace_only message_ = true ->
  runStateT (post_chat utcnow [] o) (Some db) = inl RequestValidationError
  /\ ChatRequest.validate message_ o = inr (ChatRequest.mk message_ o)
  /\ reply_of (runStateT (post_chat utcnow message_ o) (Some db))
     = Some (codebro_brain message_)
  /\ codebro_brain message_ = default_reply [].
Proof.
  intros Hne Hws. split; [reflexivity|].
  split; [now apply validate_non_empty|].
  split; [|now apply codebro_brain_whitespace].
  unfold post_chat. rewrite (validate_non_empty _ _ Hne).
  apply chat_reply.
Qed.

Lemma chat_validation_counts_characters_witness :
  py " \n " <> [] /\
  whitespace_only (py " \n ") = true /\
  runStateT (post_chat N.of_nat [] None) (Some empty_database)
  = inl RequestValidationError
  /\ ChatRequest.validate (py " \n ") None
     = inr (ChatRequest.mk (py " \n ") None)
  /\ reply_of (runStateT (post_chat N.of_nat (py " \n ") None)
                 (Some empty_database))
     = Some (codebro_brain (py " \n "))
  /\ codebro_brain (py " \n ") = default_reply [].
Proof.
  assert (Hne : py " \n " <> []) by (vm_compute; discriminate).
  assert (Hws : whitespace_only (py " \n ") = true) by (vm_compute; reflexivity).
  exact (conj Hne (conj Hws
           (chat_validation_counts_characters N.of_nat empty_database
              (py " \n ") None Hne Hws))).
Defined.

(** The message " " consists of whitespace only; the validation of the chat
    request accepts it, and the chat turn stores and returns what the
    responder makes of it. *)
Lemma whitespace_message_reaches_responder :
  whitespace_only (py " ") = true
  /\ ChatRequest.validate (py " ") None <> inl RequestValidationError
  /\ runStateT (post_chat N.of_nat (py " ") None) (Some empty_database)
     = inr (ChatResponse.mk (py "000000000000000000000000")
              (codebro_brain (py " ")),
            Some (mkDatabase
                    [Conversation.mk (ObjectId.generate 0) (py " ") 0%N]
                    [Message.mk (ObjectId.generate 1)
                       (py "000000000000000000000000") (py "user") (py " ")
                       1%N;
                     Message.mk (ObjectId.generate 2)
                       (py "000000000000000000000000") (py "assistant")
                       (codebro_brain (py " ")) 2%N]
                    3)).
Proof.
  split; [reflexivity|]. split; [discriminate|].
  vm_compute. reflexivity.
Qed.

(* ===================================================================== *)
(** * Properties of the cursors *)
(* ===================================================================== *)

Lemma pystr_eqb_eq (a b : str) : PyStr.eqb a b = true <-> a = b.
Proof.
  revert b. induction a as [|x a IH]; destruct b as [|y b]; simpl;
    try (split; discriminate); [tauto|].
  rewrite andb_true_iff, N.eqb_eq, IH. split.
  - now intros [-> ->].
  - intros E. injection E as -> ->. tauto.
Qed.

Lemma oid_eqb_eq (a b : ObjectId.t) : ObjectId.eqb a b = true <-> a = b.
Proof.
  revert b. induction a as [|x a IH]; destruct b as [|y b]; simpl;
    try (split; discriminate); [tauto|].
  rewrite andb_true_iff, IH. split.
  - intros [E ->]. now rewrite (Byte.byte_dec_bl _ _ E).
  - intros E. injection E as -> ->. split; [now apply Byte.byte_dec_lb|reflexivity].
Qed.

Section SortFacts.

Context {A : Type} (le : A -> A -> bool).
Hypothesis le_total : forall x y, le x y = true \/ le y x = true.
Hypothesis le_trans :
  forall x y z, le x y = true -> le y z = true -> le x z = true.

(** Sorted for [le]. *)
Local Notation "'sorted_by_le'" :=
  (StronglySorted (fun x y : A => le x y = true)) (only parsing).

Lemma insert_by_perm (x : A) (l : list A) :
  Permutation (x :: l) (insert_by le x l).
Proof.
  induction l as [|y l IH]; simpl.
  - apply Permutation_refl.
  - destruct (le x y).
    + apply Permutation_refl.
    + apply perm_trans with (y :: x :: l); [apply perm_swap|].
      now apply perm_skip.
Qed.

Lemma sort_with_perm (l : list A) : Permutation l (sort_with le l).
Proof.
  induction l as [|x l IH]; simpl.
  - apply perm_nil.
  - apply perm_trans with (x :: sort_with le l).
    + now apply perm_skip.
    + apply insert_by_perm.
Qed.

Lemma insert_by_sorted (x : A) (l : list A) :
  sorted_by_le l -> sorted_by_le (insert_by le x l).
Proof.
  induction 1 as [|y l Hl IH Hy]; simpl.
  - constructor; constructor.
  - destruct (le x y) eqn:E.
    + constructor.
      * now constructor.
      * constructor; [exact E|].
        eapply Forall_impl; [|exact Hy].
        intros z Hz. now apply le_trans with y.
    + constructor; [exact IH|].
      apply (Permutation_Forall (insert_by_perm x l)).
      constructor; [|exact Hy].
      destruct (le_total x y) as [F|F]; [congruence|exact F].
Qed.

Lemma sort_with_sorted (l : list A) : sorted_by_le (sort_with le l).
Proof.
  induction l as [|x l IH]; simpl.
  - constructor.
  - now apply insert_by_sorted.
Qed.

End SortFacts.

Lemma StronglySorted_impl {A : Type} (R Q : A -> A -> Prop) (l : list A) :
  (forall x y, R x y -> Q x y) -> StronglySorted R l -> StronglySorted Q l.
Proof.
  intros H. induction 1 as [|x l Hl IH Hx]; constructor.
  - exact IH.
  - eapply Forall_impl; [|exact Hx]. intros y. apply H.
Qed.

Section CursorFacts.

Context {A : Type} (key : A -> datetime).

Lemma sort_perm (direction : Direction) (l : list A) :
  Permutation l (sort key direction l).
Proof. destruct direction; apply sort_with_perm. Qed.

Lemma sort_descending (l : list A) :
  StronglySorted (fun a b => (key b <= key a)%N) (sort key DESCENDING l).
Proof.
  apply StronglySorted_impl
    with (R := fun x y => N.leb (key y) (key x) = true).
  - intros x y. apply N.leb_le.
  - apply sort_with_sorted.
    + intros x y. rewrite !N.leb_le. lia.
    + intros x y z. rewrite !N.leb_le. lia.
Qed.

Lemma sort_ascending (l : list A) :
  StronglySorted (fun a b => (key a <= key b)%N) (sort key ASCENDING l).
Proof.
  apply StronglySorted_impl
    with (R := fun x y => N.leb (key x) (key y) = true).
  - intros x y. apply N.leb_le.
  - apply sort_with_sorted.
    + intros x y. rewrite !N.leb_le. lia.
    + intros x y z. rewrite !N.leb_le. lia.
Qed.

End CursorFacts.

Lemma Forall2_map_r {A B : Type} (P : A -> B -> Prop) (f : A -> B)
  (l : list A) :
  (forall x, P x (f x)) -> Forall2 P l (map f l).
Proof.
  intros H. induction l as [|x l IH]; simpl; constructor; auto.
Qed.

(* ===================================================================== *)
(** * Properties of the conversation endpoints *)
(* ===================================================================== *)

(** C2: for every store state, [list_conversations] returns at most 50
    conversations, the newest ones, ordered by creation timestamp
    descending; each returned item carries the fields of its conversation
    and a messages_count equal to the number of message records in the store
    whose conversation_id is that conversation's identifier.  The store is
    left as it is. *)
Theorem list_conversations_newest_first_counted
  (isoformat : datetime -> str) (db : Database) :
  exists (items : list dict) (convos rest : list Conversation.t),
    runStateT (list_conversations isoformat) (Some db) = inr (items, Some db)
    /\ List.length items <= 50
    /\ List.length items = Nat.min 50 (List.length (conversation db))
    /\ Permutation (convos ++ rest) (conversation db)
    /\ newest_first (convos ++ rest)
    /\ Forall2
         (fun c d =>
            dict_get d (py "_id")
            = Some (VStr (ObjectId.to_str (Conversation._id c)))
            /\ dict_get d (py "title") = Some (VStr (Conversation.title c))
            /\ dict_get d (py "created_at")
               = Some (VStr (isoformat (Conversation.created_at c)))
            /\ dict_get d (py "messages_count")
               = Some (VInt (List.length
                               (messages_of db
                                  (ObjectId.to_str (Conversation._id c))))))
         convos items.
Proof.
  set (sorted := sort Conversation.created_at DESCENDING (conversation db)).
  eexists _, (firstn 50 sorted), (skipn 50 sorted).
  split; [reflexivity|].
  rewrite firstn_skipn.
  assert (Hlen : List.length sorted = List.length (conversation db)).
  { symmetry. apply Permutation_length. apply sort_perm. }
  split; [|split; [|split; [|split]]].
  - unfold limit. rewrite length_map, length_firstn. fold sorted. lia.
  - unfold limit. rewrite length_map, length_firstn. fold sorted.
    now rewrite Hlen.
  - apply Permutation_sym. apply sort_perm.
  - apply sort_descending.
  - apply Forall2_map_r. intros c. repeat split.
Qed.

(** The message counts of a list [chat] has filled (two conversations, the
    newer one first). *)
Example list_conversations_after_two_chats :
  let handle_ :=
    serve N.of_nat (fun d => [d])
      [POST_chat (py "hello") None; POST_chat (py "deploy?") None;
       POST_chat (py "more") (Some (py "000000000000000000000000"))]
      (Some empty_database) in
  option_map
    (map (fun d => (dict_get d (py "_id"), dict_get d (py "messages_count"))))
    (match runStateT (list_conversations (fun d => [d])) handle_ with
     | inr (items, _) => Some items
     | inl _ => None
     end)
  = Some [(Some (VStr (py "000000000000000000000003")), Some (VInt 2));
          (Some (VStr (py "000000000000000000000000")), Some (VInt 4))].
Proof. vm_compute. reflexivity. Qed.

Section GetConversationFacts.

Variable isoformat : datetime -> str.

(** An id that is not the text of an ObjectId makes [ObjectId(...)] raise. *)
Lemma get_conversation_invalid_id (db : Database) (conversation_id : str) :
  ObjectId.of_str conversation_id = None ->
  runStateT (get_conversation isoformat conversation_id) (Some db)
  = inl (InvalidId conversation_id).
Proof.
  intros H. unfold get_conversation. cbn. now rewrite H.
Qed.

(** The text of an ObjectId no conversation has is answered with NotFound. *)
Lemma get_conversation_not_found (db : Database) (conversation_id : str)
  (oid : ObjectId.t) :
  ObjectId.of_str conversation_id = Some oid ->
  find_one db oid = None ->
  runStateT (get_conversation isoformat conversation_id) (Some db)
  = inl NotFound.
Proof.
  intros H F. unfold get_conversation. cbn. now rewrite H, F.
Qed.

(** A found conversation is returned with the messages stored under the id
    as it was given, the oldest first. *)
Lemma get_conversation_found (db : Database) (conversation_id : str)
  (oid : ObjectId.t) (convo : Conversation.t) :
  ObjectId.of_str conversation_id = Some oid ->
  find_one db oid = Some convo ->
  exists msgs : list Message.t,
    runStateT (get_conversation isoformat conversation_id) (Some db)
    = inr ((serialize_doc isoformat (Conversation.to_dict convo),
            map (fun m => serialize_doc isoformat (Message.to_dict m)) msgs),
           Some db)
    /\ Conversation._id convo = oid
    /\ Permutation msgs (messages_of db conversation_id)
    /\ oldest_first msgs.
Proof.
  intros H F.
  exists (sort Message.created_at ASCENDING (messages_of db conversation_id)).
  split.
  - unfold get_conversation. cbn. rewrite H, F. reflexivity.
  - split; [|split].
    + apply find_some in F. now apply oid_eqb_eq.
    + apply Permutation_sym. apply sort_perm.
    + apply sort_ascending.
Qed.

End GetConversationFacts.

(** The text of an ObjectId is made of pairs of hexadecimal digits: it is
    never "unknown-id". *)
Lemma to_str_not_unknown_id (oid : ObjectId.t) :
  ObjectId.to_str oid <> py "unknown-id".
Proof.
  destruct oid as [|b oid]; [discriminate|].
  unfold ObjectId.to_str. cbn [flat_map].
  destruct b; discriminate.
Qed.

(** C3, at the id "unknown-id": no conversation of any store has this
    identifier, and the id does not resolve; [get_conversation] raises
    InvalidId, which is not the NotFound error. *)
Theorem get_conversation_unknown_id
  (isoformat : datetime -> str) (db : Database) :
  Forall (fun c => ObjectId.to_str (Conversation._id c) <> py "unknown-id")
         (conversation db)
  /\ resolves db (py "unknown-id") = false
  /\ runStateT (get_conversation isoformat (py "unknown-id")) (Some db)
     = inl (InvalidId (py "unknown-id"))
  /\ InvalidId (py "unknown-id") <> NotFound.
Proof.
  split; [|split; [|split]].
  - apply Forall_forall. intros c _. apply to_str_not_unknown_id.
  - reflexivity.
  - now apply get_conversation_invalid_id.
  - discriminate.
Qed.

(** The id of a stored conversation, written with a capital digit, finds the
    conversation and none of its messages. *)
Example get_conversation_capital_digit :
  let convo := Conversation.mk (ObjectId.generate 10) (py "t") 0%N in
  let msg :=
    Message.mk (ObjectId.generate 11) (py "00000000000000000000000a")
      (py "user") (py "x") 1%N in
  let db := mkDatabase [convo] [msg] 12 in
  ObjectId.to_str (Conversation._id convo) = Message.conversation_id msg
  /\ runStateT (get_conversation (fun d => [d]) (py "00000000000000000000000A"))
       (Some db)
     = inr ((serialize_doc (fun d => [d]) (Conversation.to_dict convo), []),
            Some db).
Proof. split; vm_compute; reflexivity. Qed.

(* ===================================================================== *)
(** * The references of the messages *)
(* ===================================================================== *)

Section ObjectIdFacts.

(** Reading back the two digits [str] writes for a byte gives the byte. *)
Lemma fromhex_hexlify_byte (b : byte) (rest : str) :
  ObjectId.fromhex (ObjectId.hexlify_byte b ++ rest)
  = option_map (cons b) (ObjectId.fromhex rest).
Proof. destruct b; reflexivity. Qed.

Lemma fromhex_to_str (oid : ObjectId.t) :
  ObjectId.fromhex (ObjectId.to_str oid) = Some oid.
Proof.
  induction oid as [|b oid IH].
  - reflexivity.
  - change (ObjectId.to_str (b :: oid))
      with (ObjectId.hexlify_byte b ++ ObjectId.to_str oid).
    now rewrite fromhex_hexlify_byte, IH.
Qed.

Lemma to_str_length (oid : ObjectId.t) :
  len (ObjectId.to_str oid) = 2 * List.length oid.
Proof.
  unfold len. induction oid as [|b oid IH]; simpl in *; [reflexivity|].
  rewrite IH. lia.
Qed.

Lemma generate_length (k : nat) : List.length (ObjectId.generate k) = 12.
Proof. reflexivity. Qed.

(** The identifier [create_document] returns reads back as the ObjectId of
    the record it created. *)
Lemma of_str_generate (k : nat) :
  ObjectId.of_str (ObjectId.to_str (ObjectId.generate k))
  = Some (ObjectId.generate k).
Proof.
  unfold ObjectId.of_str.
  rewrite to_str_length, generate_length. cbn [Nat.mul Nat.add Nat.eqb].
  apply fromhex_to_str.
Qed.

End ObjectIdFacts.

Section ResolveFacts.

Lemma find_app_some {A : Type} (f : A -> bool) (l l' : list A) (x : A) :
  find f l = Some x -> find f (l ++ l') = Some x.
Proof.
  induction l as [|y l IH]; simpl; [discriminate|].
  destruct (f y); auto.
Qed.

(** Conversations are only ever added: what resolved still resolves. *)
Lemma resolves_extend (db db' : Database) (cs : list Conversation.t)
  (cid : str) :
  conversation db' = conversation db ++ cs ->
  resolves db cid = true -> resolves db' cid = true.
Proof.
  intros E. unfold resolves, find_one. rewrite E.
  destruct (ObjectId.of_str cid) as [oid|]; [|discriminate].
  destruct (find _ (conversation db)) as [c|] eqn:F; [|discriminate].
  now rewrite (find_app_some _ _ cs _ F).
Qed.

(** The id of a conversation the store just made resolves. *)
Lemma resolves_created (db : Database) (k : nat) (title : str) (at_ : datetime)
  (l : list Conversation.t) :
  conversation db = l ++ [Conversation.mk (ObjectId.generate k) title at_] ->
  resolves db (ObjectId.to_str (ObjectId.generate k)) = true.
Proof.
  intros E. unfold resolves, find_one. rewrite of_str_generate, E.
  match goal with |- match ?f with _ => _ end = _ => destruct f eqn:F end;
    [reflexivity|].
  pose proof (find_none _ _ F (Conversation.mk (ObjectId.generate k) title at_))
    as H.
  cbn [Conversation._id] in H.
  rewrite (proj2 (oid_eqb_eq _ _) eq_refl) in H.
  discriminate H. apply in_or_app. right. now left.
Qed.

End ResolveFacts.

Section InvariantFacts.

Variable utcnow : nat -> datetime.
Variable isoformat : datetime -> str.

Lemma step_unconfigured (r : Request) : step utcnow isoformat None r = None.
Proof.
  destruct r as [| | | | |m o|]; try reflexivity.
  unfold step, handle, post_chat.
  destruct (ChatRequest.validate m o); reflexivity.
Qed.

(** A request only adds records, and each message it adds refers to a
    conversation of the store it leaves behind. *)
Lemma step_extends (db : Database) (r : Request) :
  supplied_id_resolves db r = true ->
  exists (db' : Database) (cs : list Conversation.t) (ms : list Message.t),
    step utcnow isoformat (Some db) r = Some db'
    /\ conversation db' = conversation db ++ cs
    /\ message db' = message db ++ ms
    /\ Forall (fun m => resolves db' (Message.conversation_id m) = true) ms.
Proof.
  intros Hr.
  assert (Same : exists (db' : Database) cs ms,
             Some db = Some db'
             /\ conversation db' = conversation db ++ cs
             /\ message db' = message db ++ ms
             /\ Forall (fun m => resolves db' (Message.conversation_id m) = true) ms).
  { exists db, [], []. now rewrite !app_nil_r. }
  destruct r as [| |title| |cid|m o|]; try exact Same.
  - (* POST /api/conversations *)
    eexists _, [_], []. split; [reflexivity|].
    cbn [conversation message]. rewrite app_nil_r. auto.
  - (* GET /api/conversations/{id} *)
    unfold step, handle, get_conversation. cbn.
    destruct (ObjectId.of_str cid) as [oid|]; [|exact Same].
    destruct (find_one db oid); exact Same.
  - (* POST /api/chat *)
    unfold step, handle, post_chat.
    destruct m as [|ch m]; [exact Same|].
    cbn [ChatRequest.validate len List.length Nat.leb].
    cbn [supplied_id_resolves] in Hr.
    destruct (truthy o) as [given|] eqn:E.
    + cbn [bind Monad_stateT runStateT].
      rewrite (run_chat_given utcnow db (ch :: m) o given E).
      cbn [bind Monad_either ret runStateT fst snd].
      eexists _, [], [_; _]. split; [reflexivity|].
      cbn [conversation message]. rewrite app_nil_r.
      repeat split. repeat constructor; exact Hr.
    + cbn [bind Monad_stateT runStateT].
      rewrite (run_chat_new utcnow db (ch :: m) o E).
      cbn [bind Monad_either ret runStateT fst snd].
      eexists _, [_], [_; _]. split; [reflexivity|].
      cbn [conversation message].
      repeat split.
      repeat constructor; cbn [Message.conversation_id];
        eapply resolves_created; reflexivity.
Qed.

Lemma step_preserves (handle_ : option Database) (r : Request) :
  references_resolve handle_ ->
  match handle_ with
  | Some db => supplied_id_resolves db r = true
  | None => True
  end ->
  references_resolve (step utcnow isoformat handle_ r).
Proof.
  destruct handle_ as [db|]; [|now rewrite step_unconfigured].
  intros Inv Hr.
  destruct (step_extends db r Hr) as (db' & cs & ms & -> & Ec & Em & Hms).
  unfold references_resolve in *. rewrite Em.
  apply Forall_app. split; [|exact Hms].
  eapply Forall_impl; [|exact Inv].
  intros m. now apply resolves_extend with cs.
Qed.

End InvariantFacts.

(** C4, as the code has it: after any sequence of requests in which every
    conversation id supplied to the chat operation resolves to an existing
    conversation when the request arrives, every persisted message's
    conversation_id resolves to an existing conversation, provided this held
    before the sequence.  The chat operation itself does not check a
    supplied id. *)
Theorem references_resolve_preserved
  (utcnow : nat -> datetime) (isoformat : datetime -> str)
  (rs : list Request) (handle_ : option Database) :
  references_resolve handle_ ->
  supplied_ids_resolve utcnow isoformat rs handle_ = true ->
  references_resolve (serve utcnow isoformat rs handle_).
Proof.
  revert handle_. induction rs as [|r rs IH]; intros handle_ Inv Hrs.
  - exact Inv.
  - cbn [supplied_ids_resolve] in Hrs.
    apply andb_true_iff in Hrs. destruct Hrs as [Hr Hrs].
    cbn [serve fold_left]. apply IH; [|exact Hrs].
    apply step_preserves; [exact Inv|].
    destruct handle_; [exact Hr|exact I].
Qed.

Lemma references_resolve_preserved_witness :
  let rs :=
    [POST_chat (py "hello") None;
     POST_chat (py "and react?") (Some (py "000000000000000000000000"));
     GET_conversations;
     POST_conversations (Some (py "notes"));
     POST_chat (py "deploy") (Some [])] in
  references_resolve (Some empty_database)
  /\ supplied_ids_resolve N.of_nat (fun d => [d]) rs (Some empty_database) = true
  /\ references_resolve (serve N.of_nat (fun d => [d]) rs (Some empty_database)).
Proof.
  cbv zeta.
  assert (Inv : references_resolve (Some empty_database)) by constructor.
  split; [exact Inv|].
  match goal with
  | |- ?h = true /\ _ =>
      assert (Hrs : h = true) by (vm_compute; reflexivity)
  end.
  split; [exact Hrs|].
  exact (references_resolve_preserved N.of_nat (fun d => [d]) _ _ Inv Hrs).
Defined.

(** A chat request that supplies the id "nope" to an empty store leaves two
    messages under "nope" and no conversation: their conversation_id does
    not resolve. *)
Lemma chat_supplied_id_unchecked :
  serve N.of_nat (fun d => [d]) [POST_chat (py "hi") (Some (py "nope"))]
    (Some empty_database)
  = Some (mkDatabase []
            [Message.mk (ObjectId.generate 0) (py "nope") (py "user")
               (py "hi") 0%N;
             Message.mk (ObjectId.generate 1) (py "nope") (py "assistant")
               (codebro_brain (py "hi")) 1%N]
            2)
  /\ ~ references_resolve
         (serve N.of_nat (fun d => [d])
            [POST_chat (py "hi") (Some (py "nope"))] (Some empty_database)).
Proof.
  assert (E : serve N.of_nat (fun d => [d])
                [POST_chat (py "hi") (Some (py "nope"))] (Some empty_database)
              = Some (mkDatabase []
                        [Message.mk (ObjectId.generate 0) (py "nope")
                           (py "user") (py "hi") 0%N;
                         Message.mk (ObjectId.generate 1) (py "nope")
                           (py "assistant") (codebro_brain (py "hi")) 1%N]
                        2))
    by (vm_compute; reflexivity).
  split; [exact E|].
  rewrite E. intros H. apply Forall_inv in H. discriminate H.
Qed.

(* ===================================================================== *)
(** * Further properties of the responder *)
(* ===================================================================== *)

Section ReplyFacts.

(** The default reply begins with "I " whatever it echoes. *)
Lemma default_reply_head (user_message : str) :
  exists rest : str, default_reply user_message = 73%N :: 32%N :: rest.
Proof.
  exists (tl (tl (default_reply user_message))).
  unfold default_reply.
  generalize (strip user_message) as echoed. intros echoed.
  vm_compute. reflexivity.
Qed.

(** An occurrence of a keyword is an occurrence of each of its prefixes. *)
Lemma startswith_app_l (p q s : str) :
  startswith (p ++ q) s = true -> startswith p s = true.
Proof.
  revert s. induction p as [|a p IH]; intros s H; [reflexivity|].
  destruct s as [|b s]; [discriminate|]. simpl in *.
  apply andb_true_iff in H. destruct H as [-> H]. now apply IH.
Qed.

Lemma contains_app_prefix (p q s : str) :
  contains (p ++ q) s = true -> contains p s = true.
Proof.
  induction s as [|c s IH]; simpl; intros H.
  - rewrite orb_false_r in *. now apply startswith_app_l with q.
  - apply orb_true_iff in H. apply orb_true_iff. destruct H as [H|H].
    + left. now apply startswith_app_l with q.
    + right. now apply IH.
Qed.

Lemma lstrip_app_whitespace (ws s : str) :
  forallb isspace ws = true -> lstrip (ws ++ s) = lstrip s.
Proof.
  induction ws as [|c ws IH]; simpl; intros H; [reflexivity|].
  apply andb_true_iff in H. destruct H as [-> H]. now apply IH.
Qed.

Lemma lstrip_app (s t : str) :
  lstrip s <> [] -> lstrip (s ++ t) = lstrip s ++ t.
Proof.
  induction s as [|c s IH]; simpl; intros H; [contradiction|].
  destruct (isspace c); [now apply IH|reflexivity].
Qed.

Lemma lstrip_empty_whitespace (s : str) :
  lstrip s = [] -> forallb isspace s = true.
Proof.
  induction s as [|c s IH]; simpl; intros H; [reflexivity|].
  destruct (isspace c); [now apply IH|discriminate].
Qed.

Lemma rstrip_app_whitespace (s ws : str) :
  forallb isspace ws = true -> rstrip (s ++ ws) = rstrip s.
Proof.
  intros H. unfold rstrip. rewrite rev_app_distr, lstrip_app_whitespace;
    [reflexivity|].
  rewrite forallb_forall in *. intros x Hx. apply H. now apply in_rev.
Qed.

(** Whitespace around a message is trimmed away. *)
Lemma strip_padding (ws1 ws2 s : str) :
  forallb isspace ws1 = true -> forallb isspace ws2 = true ->
  strip (ws1 ++ s ++ ws2) = strip s.
Proof.
  intros H1 H2. unfold strip. rewrite (lstrip_app_whitespace _ _ H1).
  destruct (lstrip s) as [|c t] eqn:E.
  - rewrite lstrip_app_whitespace; [|now apply lstrip_empty_whitespace].
    now rewrite (lstrip_whitespace _ H2).
  - rewrite lstrip_app, E; [|rewrite E; discriminate].
    now apply rstrip_app_whitespace.
Qed.

End ReplyFacts.

(** X1: the greeting reply is returned exactly when "hello", "hi" or "hey"
    occurs somewhere in the trimmed, lowercased message, inside a longer
    word too and whatever other keywords the message has. *)
Theorem codebro_brain_greeting_iff (user_message : str) :
  codebro_brain user_message = greeting_reply <-> greets user_message = true.
Proof.
  split.
  - unfold codebro_brain, greets. cbv zeta.
    destruct (existsb _ _); [reflexivity|].
    intros H. exfalso.
    destruct (default_reply_head user_message) as [rest E].
    rewrite E in H. clear E.
    repeat match type of H with
           | (if ?c then _ else _) = _ => destruct c
           end;
      vm_compute in H; discriminate H.
  - apply codebro_brain_greeting_first.
Qed.

(** The word "this" holds "hi": a message about a Python error is greeted. *)
Example codebro_brain_greets_this :
  greets (py "Fix this Python error") = true
  /\ codebro_brain (py "Fix this Python error") = greeting_reply.
Proof. split; vm_compute; reflexivity. Qed.

(** X2: the default reply is returned exactly when none of the sixteen
    keywords occurs in the trimmed, lowercased message. *)
Theorem codebro_brain_default_iff (user_message : str) :
  codebro_brain user_message = default_reply user_message
  <-> no_rule_matches user_message = true.
Proof.
  split; [|apply codebro_brain_default].
  unfold codebro_brain, no_rule_matches, keywords. cbv zeta.
  cbn [existsb forallb]. set (m := lower (strip user_message)).
  destruct (default_reply_head user_message) as [rest E].
  rewrite E. clear E. intros H.
  repeat match type of H with
         | (if ?c then _ else _) = _ =>
             destruct c eqn:?; [exfalso; vm_compute in H; discriminate H|]
         end.
  clear H.
  repeat match goal with
         | K : (_ || _) = false |- _ =>
             apply orb_false_iff in K; destruct K
         end.
  repeat match goal with
         | K : contains _ m = false |- _ => rewrite K; clear K
         end.
  reflexivity.
Qed.

(** X3: whitespace before and after a message does not change the reply. *)
Theorem codebro_brain_padding (ws1 ws2 user_message : str) :
  whitespace_only ws1 = true -> whitespace_only ws2 = true ->
  codebro_brain (ws1 ++ user_message ++ ws2) = codebro_brain user_message.
Proof.
  intros H1 H2. unfold codebro_brain, default_reply. cbv zeta.
  now rewrite (strip_padding ws1 ws2 user_message H1 H2).
Qed.

Lemma codebro_brain_padding_witness :
  whitespace_only (py "\n  ") = true /\ whitespace_only (py " ") = true
  /\ codebro_brain (py "\n  " ++ py "do you like zebras?" ++ py " ")
     = codebro_brain (py "do you like zebras?").
Proof.
  assert (H1 : whitespace_only (py "\n  ") = true) by (vm_compute; reflexivity).
  assert (H2 : whitespace_only (py " ") = true) by (vm_compute; reflexivity).
  exact (conj H1 (conj H2
           (codebro_brain_padding (py "\n  ") (py " ")
              (py "do you like zebras?") H1 H2))).
Defined.

(** X4: the tests for "deployment" and for "mongodb" never decide: where
    they succeed, the tests for "deploy" and for "mongo" next to them
    succeed too. *)
Theorem codebro_brain_redundant_keywords (m : str) :
  (contains (py "deploy") m || contains (py "deployment") m
   = contains (py "deploy") m)
  /\ (contains (py "mongodb") m || contains (py "mongo") m
        || contains (py "database") m
      = contains (py "mongo") m || contains (py "database") m).
Proof.
  split.
  - destruct (contains (py "deployment") m) eqn:E.
    + change (py "deployment") with (py "deploy" ++ py "ment") in E.
      rewrite (contains_app_prefix _ _ _ E). reflexivity.
    + apply orb_false_r.
  - destruct (contains (py "mongodb") m) eqn:E.
    + change (py "mongodb") with (py "mongo" ++ py "db") in E.
      rewrite (contains_app_prefix _ _ _ E). reflexivity.
    + reflexivity.
Qed.

(* ===================================================================== *)
(** * Further properties of the serialisation *)
(* ===================================================================== *)

(** X5: [serialize_doc] keeps the keys of a document, in their order, and
    leaves no ObjectId and no datetime among the values of these keys.  It
    is shallow: every other value, a list or a nested document included, is
    returned as it is, whatever it holds. *)
Theorem serialize_doc_top_level (isoformat : datetime -> str) (doc : dict) :
  map fst (serialize_doc isoformat doc) = map fst doc
  /\ forallb (fun kv => negb (needs_serializing (snd kv)))
       (serialize_doc isoformat doc) = true
  /\ Forall2
       (fun kv kv' =>
          snd kv' = match snd kv with
                    | VObjectId oid => VStr (ObjectId.to_str oid)
                    | VDatetime d => VStr (isoformat d)
                    | VStr _ | VInt _ | VNone | VBool _ | VFloat _ | VList _
                    | VDict _ => snd kv
                    end)
       doc (serialize_doc isoformat doc).
Proof.
  unfold serialize_doc. split; [|split].
  - rewrite map_map. apply map_ext. intros [k v]. now destruct v.
  - apply forallb_forall. intros kv Hin.
    apply in_map_iff in Hin. destruct Hin as ([k v] & <- & _).
    now destruct v.
  - apply Forall2_map_r. intros [k v]. now destruct v.
Qed.

(** An ObjectId and a datetime inside a list or a nested document are left
    in the result, with [None] and a float. *)
Example serialize_doc_shallow :
  let doc :=
    [(py "_id", VObjectId (ObjectId.generate 7));
     (py "refs", VList [VObjectId (ObjectId.generate 8)]);
     (py "meta", VDict [(py "seen", VDatetime 5%N)]);
     (py "score", VFloat 4609434218613702656%N);
     (py "parent", VNone)] in
  serialize_doc (fun d => [d]) doc
  = [(py "_id", VStr (py "000000000000000000000007"));
     (py "refs", VList [VObjectId (ObjectId.generate 8)]);
     (py "meta", VDict [(py "seen", VDatetime 5%N)]);
     (py "score", VFloat 4609434218613702656%N);
     (py "parent", VNone)].
Proof. vm_compute. reflexivity. Qed.

(** X6: serialising a serialised document changes nothing. *)
Theorem serialize_doc_idempotent (isoformat : datetime -> str) (doc : dict) :
  serialize_doc isoformat (serialize_doc isoformat doc)
  = serialize_doc isoformat doc.
Proof.
  unfold serialize_doc. rewrite map_map. apply map_ext.
  intros [k v]. now destruct v.
Qed.

(** X7: looking a key up in a serialised document gives the serialised
    value of the key in the document; a missing key stays missing. *)
Theorem serialize_doc_get (isoformat : datetime -> str) (doc : dict)
  (k : str) :
  dict_get (serialize_doc isoformat doc) k
  = option_map (serialized isoformat) (dict_get doc k).
Proof.
  unfold serialize_doc.
  induction doc as [|[k' v] doc IH]; [reflexivity|].
  destruct v; simpl; destruct (PyStr.eqb k' k); try reflexivity; exact IH.
Qed.

(* ===================================================================== *)
(** * Further properties of the conversation endpoints *)
(* ===================================================================== *)

Section EndpointFacts.

Variable utcnow : nat -> datetime.
Variable isoformat : datetime -> str.

Lemma run_create_conversation (db : Database) (title : option str) :
  runStateT (create_conversation utcnow (CreateConversationRequest.mk title))
    (Some db)
  = let shown :=
      match title with
      | Some (c :: s) => c :: s
      | _ => py "New Chat"
      end in
    inr ((ObjectId.to_str (ObjectId.generate (created db)), shown),
         Some (mkDatabase
                 (conversation db
                    ++ [Conversation.mk (ObjectId.generate (created db)) shown
                          (utcnow (created db))])
                 (message db) (S (created db)))).
Proof. destruct title as [[|c s]|]; reflexivity. Qed.

(** The conversation the store made last is found under its identifier,
    unless an older one has it. *)
Lemma find_one_created (db : Database) (l : list Conversation.t)
  (oid : ObjectId.t) (title : str) (at_ : datetime) :
  conversation db = l ++ [Conversation.mk oid title at_] ->
  exists convo, find_one db oid = Some convo.
Proof.
  intros E. unfold find_one. rewrite E.
  match goal with |- exists _, ?f = _ => destruct f as [c|] eqn:F end;
    [now exists c|].
  pose proof (find_none _ _ F (Conversation.mk oid title at_)) as H.
  cbn [Conversation._id] in H.
  rewrite (proj2 (oid_eqb_eq _ _) eq_refl) in H.
  discriminate H. apply in_or_app. right. now left.
Qed.

Lemma pystr_eqb_refl (a : str) : PyStr.eqb a a = true.
Proof. now apply pystr_eqb_eq. Qed.

(** A request only appends records, one creation at a time. *)
Lemma step_appends (db : Database) (r : Request) :
  exists (db' : Database) (cs : list Conversation.t) (ms : list Message.t),
    step utcnow isoformat (Some db) r = Some db'
    /\ conversation db' = conversation db ++ cs
    /\ message db' = message db ++ ms
    /\ created db' = created db + List.length cs + List.length ms.
Proof.
  assert (Same : exists (db' : Database) cs ms,
             Some db = Some db'
             /\ conversation db' = conversation db ++ cs
             /\ message db' = message db ++ ms
             /\ created db' = created db + List.length cs + List.length ms).
  { exists db, [], []. rewrite !app_nil_r. cbn [List.length].
    repeat split. lia. }
  destruct r as [| |title| |cid|m o|]; try exact Same.
  - unfold step, handle. cbn [bind Monad_stateT runStateT].
    rewrite run_create_conversation.
    cbn [bind Monad_either ret runStateT fst snd].
    eexists _, [_], []. split; [reflexivity|].
    cbn [conversation message created List.length]. rewrite app_nil_r.
    repeat split. lia.
  - unfold step, handle, get_conversation. cbn.
    destruct (ObjectId.of_str cid) as [oid|]; [|exact Same].
    destruct (find_one db oid); exact Same.
  - unfold step, handle, post_chat.
    destruct m as [|ch m]; [exact Same|].
    cbn [ChatRequest.validate len List.length Nat.leb].
    destruct (truthy o) as [given|] eqn:E.
    + cbn [bind Monad_stateT runStateT].
      rewrite (run_chat_given utcnow db (ch :: m) o given E).
      cbn [bind Monad_either ret runStateT fst snd].
      eexists _, [], [_; _]. split; [reflexivity|].
      cbn [conversation message created List.length]. rewrite app_nil_r.
      repeat split. lia.
    + cbn [bind Monad_stateT runStateT].
      rewrite (run_chat_new utcnow db (ch :: m) o E).
      cbn [bind Monad_either ret runStateT fst snd].
      eexists _, [_], [_; _]. split; [reflexivity|].
      cbn [conversation message created List.length].
      repeat split. lia.
Qed.

End EndpointFacts.

(** X8: on a configured database [create_conversation] adds exactly one
    conversation and no message; its title is the requested one, or
    "New Chat" when the request has no title or an empty one.  It returns
    the identifier of the new record and the title. *)
Theorem create_conversation_adds_one
  (utcnow : nat -> datetime) (db : Database) (title : option str) :
  exists c : Conversation.t,
    runStateT (create_conversation utcnow (CreateConversationRequest.mk title))
      (Some db)
    = inr ((ObjectId.to_str (Conversation._id c), Conversation.title c),
           Some (mkDatabase (conversation db ++ [c]) (message db)
                   (1 + created db)))
    /\ Conversation.title c
       = match title with
         | None | Some [] => py "New Chat"
         | Some given => given
         end.
Proof.
  eexists (Conversation.mk _ _ _). rewrite run_create_conversation.
  cbn [Conversation._id Conversation.title].
  split; [reflexivity|]. now destruct title as [[|c s]|].
Qed.

(** X9: the identifier [create_conversation] returns is one
    [get_conversation] accepts: the request that follows succeeds, with a
    conversation whose "_id" is that identifier and with the messages
    stored under it. *)
Theorem create_conversation_then_get
  (utcnow : nat -> datetime) (isoformat : datetime -> str) (db : Database)
  (title : option str) :
  exists (cid shown : str) (db' : Database) (convo : Conversation.t)
         (msgs : list Message.t),
    runStateT (create_conversation utcnow (CreateConversationRequest.mk title))
      (Some db) = inr ((cid, shown), Some db')
    /\ runStateT (get_conversation isoformat cid) (Some db')
       = inr ((serialize_doc isoformat (Conversation.to_dict convo),
               map (fun m => serialize_doc isoformat (Message.to_dict m)) msgs),
              Some db')
    /\ dict_get (serialize_doc isoformat (Conversation.to_dict convo))
         (py "_id") = Some (VStr cid)
    /\ Permutation msgs (messages_of db cid).
Proof.
  rewrite run_create_conversation. cbv zeta.
  match goal with
  | |- context [Some (mkDatabase ?cs ?ms ?n)] => set (db' := mkDatabase cs ms n)
  end.
  destruct (find_one_created db' _ _ _ _ eq_refl) as [convo F].
  destruct (get_conversation_found isoformat db' _ _ convo
              (of_str_generate (created db)) F) as (msgs & Hrun & Hid & Hp & _).
  eexists _, _, db', convo, msgs.
  split; [reflexivity|]. split; [exact Hrun|]. split.
  - cbn. now rewrite Hid.
  - exact Hp.
Qed.

(** X10: given a non-empty conversation id, [chat] creates no conversation
    and does not look the id up: it stores the user message and then the
    reply under the id as given, and returns that id. *)
Theorem chat_with_conversation_id
  (utcnow : nat -> datetime) (db : Database) (message_ : str)
  (c : char) (s : str) :
  exists u a : Message.t,
    runStateT (chat utcnow (ChatRequest.mk message_ (Some (c :: s)))) (Some db)
    = inr (ChatResponse.mk (c :: s) (codebro_brain message_),
           Some (mkDatabase (conversation db) (message db ++ [u; a])
                   (2 + created db)))
    /\ Message.conversation_id u = c :: s
    /\ Message.role u = py "user"
    /\ Message.content u = message_
    /\ Message.conversation_id a = c :: s
    /\ Message.role a = py "assistant"
    /\ Message.content a = codebro_brain message_.
Proof.
  eexists (Message.mk _ _ _ _ _), (Message.mk _ _ _ _ _).
  rewrite (run_chat_given utcnow db message_ (Some (c :: s)) (c :: s) eq_refl).
  cbn [Message.conversation_id Message.role Message.content].
  repeat split.
Qed.

(** X11: after a chat turn that opened a conversation, [get_conversation]
    on the returned id succeeds; its messages hold the stored user message
    and the stored reply, the oldest first. *)
Theorem chat_then_get_conversation
  (utcnow : nat -> datetime) (isoformat : datetime -> str) (db : Database)
  (message_ : str) :
  exists (resp : ChatResponse.t) (db' : Database) (convo : Conversation.t)
         (msgs : list Message.t) (u a : Message.t),
    runStateT (chat utcnow (ChatRequest.mk message_ None)) (Some db)
    = inr (resp, Some db')
    /\ runStateT (get_conversation isoformat (ChatResponse.conversation_id resp))
         (Some db')
       = inr ((serialize_doc isoformat (Conversation.to_dict convo),
               map (fun m => serialize_doc isoformat (Message.to_dict m)) msgs),
              Some db')
    /\ ObjectId.to_str (Conversation._id convo)
       = ChatResponse.conversation_id resp
    /\ oldest_first msgs
    /\ In u msgs /\ In a msgs
    /\ Message.role u = py "user" /\ Message.content u = message_
    /\ Message.role a = py "assistant"
    /\ Message.content a = ChatResponse.reply resp.
Proof.
  rewrite (run_chat_new utcnow db message_ None eq_refl). cbv zeta.
  match goal with
  | |- context [Some (mkDatabase ?cs (?old ++ [?u; ?a]) ?n)] =>
      set (db' := mkDatabase cs (old ++ [u; a]) n);
      set (mu := u); set (ma := a)
  end.
  destruct (find_one_created db' _ _ _ _ eq_refl) as [convo F].
  destruct (get_conversation_found isoformat db' _ _ convo
              (of_str_generate (created db)) F) as (msgs & Hrun & Hid & Hp & Hs).
  exists (ChatResponse.mk (ObjectId.to_str (ObjectId.generate (created db)))
            (codebro_brain message_)), db', convo, msgs, mu, ma.
  cbn [ChatResponse.conversation_id ChatResponse.reply].
  assert (Hin : forall m, In m [mu; ma] -> In m msgs).
  { intros m Hm. apply (Permutation_in _ (Permutation_sym Hp)).
    unfold messages_of. apply filter_In. split.
    - cbn [message db']. apply in_or_app. now right.
    - destruct Hm as [<-|[<-|[]]]; apply pystr_eqb_refl. }
  split; [reflexivity|]. split; [exact Hrun|]. split; [now rewrite Hid|].
  split; [exact Hs|].
  split; [apply Hin; now left|]. split; [apply Hin; right; now left|].
  repeat split.
Qed.

(** X12: a chat turn raises the number of messages counted for the
    conversation id it returns by exactly two, and leaves the count of
    every other id as it was. *)
Theorem chat_counts_two
  (utcnow : nat -> datetime) (db : Database) (message_ : str)
  (o : option str) :
  exists (resp : ChatResponse.t) (db' : Database),
    runStateT (chat utcnow (ChatRequest.mk message_ o)) (Some db)
    = inr (resp, Some db')
    /\ forall cid : str,
         count_documents db' (Some (VStr cid))
         = count_documents db (Some (VStr cid))
           + (if PyStr.eqb (ChatResponse.conversation_id resp) cid
              then 2 else 0).
Proof.
  destruct (truthy o) as [given|] eqn:E.
  - rewrite (run_chat_given utcnow db message_ o given E).
    eexists _, _. split; [reflexivity|]. intros cid.
    unfold count_documents. cbn [message ChatResponse.conversation_id].
    rewrite filter_app, length_app.
    cbn [filter conversation_id_is Message.conversation_id].
    now destruct (PyStr.eqb given cid).
  - rewrite (run_chat_new utcnow db message_ o E). cbv zeta.
    eexists _, _. split; [reflexivity|]. intros cid.
    unfold count_documents. cbn [message ChatResponse.conversation_id].
    rewrite filter_app, length_app.
    cbn [filter conversation_id_is Message.conversation_id].
    now destruct (PyStr.eqb _ cid).
Qed.

(** X13: while the database is not configured, each of the four endpoints
    that use it raises the 500 error "Database not configured";
    [get_conversation] does so before it looks at the id. *)
Theorem unconfigured_database
  (utcnow : nat -> datetime) (isoformat : datetime -> str)
  (creq : CreateConversationRequest.t) (cid : str) (req : ChatRequest.t) :
  let e := HTTPException 500 (py "Database not configured") in
  runStateT (create_conversation utcnow creq) None = inl e
  /\ runStateT (list_conversations isoformat) None = inl e
  /\ runStateT (get_conversation isoformat cid) None = inl e
  /\ runStateT (chat utcnow req) None = inl e.
Proof. repeat split. Qed.

(** X14: [list_conversations] and [get_conversation] never write: when
    they return, the handle is what it was. *)
Theorem read_endpoints_keep_the_store
  (isoformat : datetime -> str) (handle_ : option Database) (cid : str) :
  match runStateT (list_conversations isoformat) handle_ with
  | inr (_, after) => after = handle_
  | inl _ => True
  end
  /\ match runStateT (get_conversation isoformat cid) handle_ with
     | inr (_, after) => after = handle_
     | inl _ => True
     end.
Proof.
  destruct handle_ as [db|]; [|split; exact I].
  split; [reflexivity|].
  unfold get_conversation. cbn.
  destruct (ObjectId.of_str cid) as [oid|]; [|exact I].
  destruct (find_one db oid); [reflexivity|exact I].
Qed.

(** X15: no sequence of requests removes or changes a stored record: the
    conversations and the messages of the store it started from are the
    first ones of the store it ends with, and the creation count grew by the
    number of records added. *)
Theorem serve_only_appends
  (utcnow : nat -> datetime) (isoformat : datetime -> str)
  (rs : list Request) (db : Database) :
  exists (db' : Database) (cs : list Conversation.t) (ms : list Message.t),
    serve utcnow isoformat rs (Some db) = Some db'
    /\ conversation db' = conversation db ++ cs
    /\ message db' = message db ++ ms
    /\ created db' = created db + List.length cs + List.length ms.
Proof.
  revert db. induction rs as [|r rs IH]; intros db.
  - exists db, [], []. rewrite !app_nil_r. cbn [List.length].
    repeat split. lia.
  - destruct (step_appends utcnow isoformat db r)
      as (db1 & cs1 & ms1 & E1 & Ec1 & Em1 & En1).
    destruct (IH db1) as (db' & cs & ms & E & Ec & Em & En).
    exists db', (cs1 ++ cs), (ms1 ++ ms).
    unfold serve in *. cbn [fold_left]. rewrite E1, E.
    rewrite Ec, Ec1, Em, Em1, En, En1, !app_assoc, !length_app.
    repeat split. lia.
Qed.

(** X16: a well-formed id (one [ObjectId] accepts) that no conversation of
    the store has is answered with the 404 error "Conversation not found". *)
Theorem get_conversation_absent
  (isoformat : datetime -> str) (db : Database) (cid : str)
  (oid : ObjectId.t) :
  ObjectId.of_str cid = Some oid ->
  Forall (fun c => Conversation._id c <> oid) (conversation db) ->
  runStateT (get_conversation isoformat cid) (Some db)
  = inl (HTTPException 404 (py "Conversation not found")).
Proof.
  intros H A. apply (get_conversation_not_found isoformat db cid oid H).
  unfold find_one. destruct (find _ _) as [c|] eqn:F; [|reflexivity].
  apply find_some in F. destruct F as [Hin He].
  apply oid_eqb_eq in He. rewrite Forall_forall in A.
  now destruct (A c Hin).
Qed.

Lemma get_conversation_absent_witness :
  let db :=
    mkDatabase [Conversation.mk (ObjectId.generate 0) (py "t") 0%N] [] 1 in
  ObjectId.of_str (py "0000000000000000000000ff") = Some (ObjectId.generate 255)
  /\ Forall (fun c => Conversation._id c <> ObjectId.generate 255)
       (conversation db)
  /\ runStateT (get_conversation (fun d => [d]) (py "0000000000000000000000ff"))
       (Some db)
     = inl (HTTPException 404 (py "Conversation not found")).
Proof.
  cbv zeta.
  assert (H : ObjectId.of_str (py "0000000000000000000000ff")
              = Some (ObjectId.generate 255)) by (vm_compute; reflexivity).
  assert (A : Forall (fun c => Conversation._id c <> ObjectId.generate 255)
                (conversation
                   (mkDatabase
                      [Conversation.mk (ObjectId.generate 0) (py "t") 0%N]
                      [] 1))).
  { repeat constructor. cbn [Conversation._id]. vm_compute. discriminate. }
  exact (conj H (conj A (get_conversation_absent (fun d => [d]) _ _ _ H A))).
Defined.

(** X17: for a well-formed id that a conversation of the store has,
    [get_conversation] returns a conversation with that identifier and the
    messages stored under the id string as it was given, ordered by creation
    time ascending. *)
Theorem get_conversation_present
  (isoformat : datetime -> str) (db : Database) (cid : str)
  (oid : ObjectId.t) (c : Conversation.t) :
  ObjectId.of_str cid = Some oid ->
  In c (conversation db) ->
  Conversation._id c = oid ->
  exists (convo : Conversation.t) (msgs : list Message.t),
    runStateT (get_conversation isoformat cid) (Some db)
    = inr ((serialize_doc isoformat (Conversation.to_dict convo),
            map (fun m => serialize_doc isoformat (Message.to_dict m)) msgs),
           Some db)
    /\ Conversation._id convo = oid
    /\ Permutation msgs (messages_of db cid)
    /\ oldest_first msgs.
Proof.
  intros H Hin Hid.
  destruct (find_one db oid) as [convo|] eqn:F.
  - exists convo. apply (get_conversation_found isoformat db cid oid convo H F).
  - unfold find_one in F. pose proof (find_none _ _ F c Hin) as N.
    cbv beta in N.
    rewrite (proj2 (oid_eqb_eq _ _) Hid) in N. discriminate N.
Qed.

Lemma get_conversation_present_witness :
  let c := Conversation.mk (ObjectId.generate 0) (py "t") 0%N in
  let late :=
    Message.mk (ObjectId.generate 1) (py "000000000000000000000000")
      (py "assistant") (py "b") 9%N in
  let early :=
    Message.mk (ObjectId.generate 2) (py "000000000000000000000000")
      (py "user") (py "a") 4%N in
  let db := mkDatabase [c] [late; early] 3 in
  ObjectId.of_str (py "000000000000000000000000") = Some (ObjectId.generate 0)
  /\ In c (conversation db)
  /\ Conversation._id c = ObjectId.generate 0
  /\ exists (convo : Conversation.t) (msgs : list Message.t),
       runStateT (get_conversation (fun d => [d])
                    (py "000000000000000000000000")) (Some db)
       = inr ((serialize_doc (fun d => [d]) (Conversation.to_dict convo),
               map (fun m => serialize_doc (fun d => [d]) (Message.to_dict m))
                   msgs),
              Some db)
       /\ Conversation._id convo = ObjectId.generate 0
       /\ Permutation msgs (messages_of db (py "000000000000000000000000"))
       /\ oldest_first msgs.
Proof.
  intros c late early db.
  assert (H : ObjectId.of_str (py "000000000000000000000000")
              = Some (ObjectId.generate 0)) by (vm_compute; reflexivity).
  assert (Hin : In c (conversation db)) by (left; reflexivity).
  assert (Hid : Conversation._id c = ObjectId.generate 0) by reflexivity.
  exact (conj H (conj Hin (conj Hid
           (get_conversation_present (fun d => [d]) db _ _ c H Hin Hid)))).
Defined.

(** The messages of that store come back the older one first. *)
Example get_conversation_sorts :
  let c := Conversation.mk (ObjectId.generate 0) (py "t") 0%N in
  let late :=
    Message.mk (ObjectId.generate 1) (py "000000000000000000000000")
      (py "assistant") (py "b") 9%N in
  let early :=
    Message.mk (ObjectId.generate 2) (py "000000000000000000000000")
      (py "user") (py "a") 4%N in
  let db := mkDatabase [c] [late; early] 3 in
  runStateT (get_conversation (fun d => [d]) (py "000000000000000000000000"))
    (Some db)
  = inr ((serialize_doc (fun d => [d]) (Conversation.to_dict c),
          map (fun m => serialize_doc (fun d => [d]) (Message.to_dict m))
              [early; late]),
         Some db).
Proof. vm_compute. reflexivity. Qed.

(** X18: an id that does not have 24 characters makes [get_conversation]
    raise [InvalidId] on every configured store; the lookup and the 404
    branch are not reached. *)
Theorem get_conversation_invalid_length
  (isoformat : datetime -> str) (db : Database) (cid : str) :
  len cid <> 24 ->
  runStateT (get_conversation isoformat cid) (Some db) = inl (InvalidId cid).
Proof.
  intros H. apply get_conversation_invalid_id. unfold ObjectId.of_str.
  destruct (Nat.eqb_spec (len cid) 24); [contradiction|reflexivity].
Qed.

Lemma get_conversation_invalid_length_witness :
  len (py "42") <> 24
  /\ runStateT (get_conversation (fun d => [d]) (py "42")) (Some empty_database)
     = inl (InvalidId (py "42")).
Proof.
  assert (H : len (py "42") <> 24) by (vm_compute; discriminate).
  exact (conj H (get_conversation_invalid_length (fun d => [d]) empty_database
                   (py "42") H)).
Defined.

(** X19: the title [chat] gives a new conversation is the whole message when
    it has at most 40 characters, and has 41 characters otherwise: it never
    exceeds 41. *)
Theorem chat_title_length (message_ : str) :
  (if Nat.leb (len message_) 40
   then chat_title message_ = message_
   else len (chat_title message_) = 41)
  /\ len (chat_title message_) <= 41.
Proof.
  unfold chat_title, slice_to, len.
  destruct (Nat.ltb_spec 40 (List.length message_)) as [L|L].
  - assert (E : List.length (firstn 40 message_ ++ py "…") = 41).
    { rewrite length_app, length_firstn.
      change (List.length (py "…")) with 1. lia. }
    destruct (Nat.leb_spec (List.length message_) 40); [lia|].
    split; [exact E|]. rewrite E. lia.
  - rewrite app_nil_r, firstn_all2 by exact L.
    destruct (Nat.leb_spec (List.length message_) 40); [|lia].
    split; [reflexivity|lia].
Qed.

(* ===================================================================== *)
(** * Properties of the diagnostic route *)
(* ===================================================================== *)

Section DiagnosticFacts.

Variable db_name : Database -> Attribute.
Variable list_collection_names : Database -> str + list str.
Variable getenv : str -> option str.

(** The response of [test_database], field by field. *)
Lemma run_test_database (handle_ : option Database) :
  exists resp : TestResponse.t,
    runStateT (test_database db_name list_collection_names getenv) handle_
    = inr (resp, handle_)
    /\ TestResponse.backend resp = py "✅ Running"
    /\ TestResponse.database_url resp
       = Some (match truthy (getenv (py "DATABASE_URL")) with
               | Some _ => py "✅ Set"
               | None => py "❌ Not Set"
               end)
    /\ TestResponse.database_name resp
       = Some (match truthy (getenv (py "DATABASE_NAME")) with
               | Some _ => py "✅ Set"
               | None => py "❌ Not Set"
               end)
    /\ match handle_ with
       | None =>
           TestResponse.database resp = py "⚠️  Available but not initialized"
           /\ TestResponse.connection_status resp = py "Not Connected"
           /\ TestResponse.collections resp = []
       | Some db =>
           match db_name db with
           | AttributeRaises e =>
               TestResponse.database resp = py "❌ Error: " ++ firstn 50 e
               /\ TestResponse.connection_status resp = py "Not Connected"
               /\ TestResponse.collections resp = []
           | NoAttribute | AttributeValue _ =>
               TestResponse.connection_status resp = py "Connected"
               /\ match list_collection_names db with
                  | inr names =>
                      TestResponse.database resp = py "✅ Connected & Working"
                      /\ TestResponse.collections resp = firstn 10 names
                  | inl e =>
                      TestResponse.database resp
                      = py "⚠️  Connected but Error: " ++ firstn 50 e
                      /\ TestResponse.collections resp = []
                  end
           end
       end.
Proof.
  eexists. split; [reflexivity|].
  destruct handle_ as [db|]; [|repeat split].
  destruct (db_name db); try (repeat split; fail);
    destruct (list_collection_names db); repeat split.
Qed.

End DiagnosticFacts.

(** X20: [test_database] never raises and never writes, and what it reports
    as "database_url" and "database_name" depends on the environment alone:
    "✅ Set" when the variable is set to a non-empty string, "❌ Not Set"
    otherwise.  The name of the database and "✅ Configured" are never
    reported. *)
Theorem test_database_environment
  (db_name : Database -> Attribute)
  (list_collection_names : Database -> str + list str)
  (getenv : str -> option str) (handle_ : option Database) :
  exists resp : TestResponse.t,
    runStateT (test_database db_name list_collection_names getenv) handle_
    = inr (resp, handle_)
    /\ TestResponse.database_url resp
       = Some (match getenv (py "DATABASE_URL") with
               | None | Some [] => py "❌ Not Set"
               | Some _ => py "✅ Set"
               end)
    /\ TestResponse.database_name resp
       = Some (match getenv (py "DATABASE_NAME") with
               | None | Some [] => py "❌ Not Set"
               | Some _ => py "✅ Set"
               end).
Proof.
  destruct (run_test_database db_name list_collection_names getenv handle_)
    as (resp & Hrun & _ & Hu & Hn & _).
  exists resp. split; [exact Hrun|]. rewrite Hu, Hn.
  split.
  - now destruct (getenv (py "DATABASE_URL")) as [[|c s]|].
  - now destruct (getenv (py "DATABASE_NAME")) as [[|c s]|].
Qed.

(** X21: what [test_database] reports of the database.  Without a handle:
    "⚠️  Available but not initialized", not connected, no collections.
    With a handle whose name cannot be read because reading it raises:
    "❌ Error: " followed by the first 50 characters of the error, not
    connected, no collections.  With any other handle: connected, and either
    "✅ Connected & Working" with the first ten collection names, or, when
    listing the collections raises, "⚠️  Connected but Error: " followed by
    the first 50 characters of the error, with no collections.  At most ten
    collections are listed, and the initial "❌ Not Available" is never
    reported. *)
Theorem test_database_report
  (db_name : Database -> Attribute)
  (list_collection_names : Database -> str + list str)
  (getenv : str -> option str) (handle_ : option Database) :
  exists resp : TestResponse.t,
    runStateT (test_database db_name list_collection_names getenv) handle_
    = inr (resp, handle_)
    /\ match handle_ with
       | None =>
           TestResponse.database resp = py "⚠️  Available but not initialized"
           /\ TestResponse.connection_status resp = py "Not Connected"
           /\ TestResponse.collections resp = []
       | Some db =>
           match db_name db with
           | AttributeRaises e =>
               TestResponse.database resp = py "❌ Error: " ++ firstn 50 e
               /\ TestResponse.connection_status resp = py "Not Connected"
               /\ TestResponse.collections resp = []
           | NoAttribute | AttributeValue _ =>
               TestResponse.connection_status resp = py "Connected"
               /\ match list_collection_names db with
                  | inr names =>
                      TestResponse.database resp = py "✅ Connected & Working"
                      /\ TestResponse.collections resp = firstn 10 names
                  | inl e =>
                      TestResponse.database resp
                      = py "⚠️  Connected but Error: " ++ firstn 50 e
                      /\ TestResponse.collections resp = []
                  end
           end
       end
    /\ List.length (TestResponse.collections resp) <= 10
    /\ TestResponse.database resp <> py "❌ Not Available".
Proof.
  destruct (run_test_database db_name list_collection_names getenv handle_)
    as (resp & Hrun & _ & _ & _ & Hcase).
  exists resp. split; [exact Hrun|]. split; [exact Hcase|].
  assert (Working : forall names : list str,
             TestResponse.database resp = py "✅ Connected & Working"
             /\ TestResponse.collections resp = firstn 10 names ->
             List.length (TestResponse.collections resp) <= 10
             /\ TestResponse.database resp <> py "❌ Not Available").
  { intros names [-> ->]. split; [rewrite length_firstn; lia|].
    vm_compute. discriminate. }
  assert (Failing : forall (prefix : str) (e : str),
             In prefix [py "⚠️  Connected but Error: "; py "❌ Error: "] ->
             TestResponse.database resp = prefix ++ firstn 50 e ->
             TestResponse.collections resp = [] ->
             List.length (TestResponse.collections resp) <= 10
             /\ TestResponse.database resp <> py "❌ Not Available").
  { intros prefix e Hp -> ->. split; [cbn [List.length]; lia|].
    destruct Hp as [<-|[<-|[]]]; vm_compute; discriminate. }
  destruct handle_ as [db|].
  - destruct (db_name db) as [|name|e].
    + destruct Hcase as [_ Hcase].
      destruct (list_collection_names db) as [e|names];
        [destruct Hcase; eapply Failing; eauto; now left|now apply Working with names].
    + destruct Hcase as [_ Hcase].
      destruct (list_collection_names db) as [e|names];
        [destruct Hcase; eapply Failing; eauto; now left|now apply Working with names].
    + destruct Hcase as (Hd & _ & Hc). eapply Failing; eauto. right. now left.
  - destruct Hcase as (-> & _ & ->). split; [cbn [List.length]; lia|].
    vm_compute. discriminate.
Qed.
